(** * nikocraft.window: the RGB colour type, the named colour table and the
    Scene base class

    A shallow embedding of [nikocraft/window/rgb.py] and
    [nikocraft/window/scene.py].

    - Python [int] is [Z]; Python [float] is an IEEE 754 binary64 value,
      [spec_float] at precision 53 and maximal exponent 1024.
    - Python [str] is [string]; every character stands for one code point
      below 256.
    - A call that may raise returns a [result]: [Ok v] or [Raise e].
    - A [dict] is a [gmap]; a [list] indexed in place is a [list] with
      stdpp's lookup and insert. *)

From Stdlib Require Import ZArith NArith Lia Ascii String.
From Stdlib Require Import Floats.SpecFloat.
From Stdlib Require Import Zcong.
From Stdlib Require DecimalString DecimalZ DecimalPos DecimalFacts.
From stdpp Require Import base option list strings gmap.

Local Open Scope string_scope.
Local Open Scope Z_scope.

(** ** The Python built-ins the two modules use *)

Module Py.

(** The exception classes that can leave the modelled code. *)
Inductive exception : Set :=
  | ValueError
  | OverflowError
  | ZeroDivisionError
  | IndexError
  | TypeError
  | AttributeError.

(** The outcome of a call: a value, or a raised exception. *)
Inductive result (A : Type) : Type :=
  | Ok (a : A)
  | Raise (e : exception).
Arguments Ok {A} a.
Arguments Raise {A} e.

#[export] Instance result_ret : MRet result := fun A a => Ok a.
#[export] Instance result_bind : MBind result := fun A B f m =>
  match m with
  | Ok a => f a
  | Raise e => Raise e
  end.
#[export] Instance result_fmap : FMap result := fun A B f m =>
  match m with
  | Ok a => Ok (f a)
  | Raise e => Raise e
  end.

Definition is_ok {A} (m : result A) : bool :=
  match m with Ok _ => true | Raise _ => false end.

(** *** Numbers *)

(** [float]: binary64. *)
Definition prec : Z := 53.
Definition emax : Z := 1024.

(** A value of [Union[int, float]]. *)
Inductive number : Set :=
  | PyInt (z : Z)
  | PyFloat (f : spec_float).

Definition fzero (f : spec_float) : bool :=
  match f with S754_zero _ => true | _ => false end.

Definition finf (f : spec_float) : bool :=
  match f with S754_infinity _ => true | _ => false end.

Definition fnan (f : spec_float) : bool :=
  match f with S754_nan => true | _ => false end.

Definition ffinite (f : spec_float) : bool :=
  match f with S754_zero _ | S754_finite _ _ _ => true | _ => false end.

(** [float(z)] for an int [z]: the nearest binary64, ties to even;
    [OverflowError] when [z] is too large. *)
Definition float_of_int (z : Z) : result spec_float :=
  let f := binary_normalize prec emax z 0 false in
  if finf f then Raise OverflowError else Ok f.

(** The literal [0.5]. *)
Definition half : spec_float := S754_finite false 4503599627370496 (-53).

(** The integer nearest to [m * 2^e] for [m >= 0], ties to even. *)
Definition nearest_even (m e : Z) : Z :=
  if 0 <=? e then m * 2 ^ e
  else
    let d := 2 ^ (- e) in
    let q := m / d in
    match 2 * (m mod d) ?= d with
    | Lt => q
    | Gt => q + 1
    | Eq => if Z.even q then q else q + 1
    end.

(** [round(x)] with one argument: an int is returned as it is, a float is
    rounded half to even; NaN raises [ValueError], an infinity
    [OverflowError]. *)
Definition round (x : number) : result Z :=
  match x with
  | PyInt z => Ok z
  | PyFloat S754_nan => Raise ValueError
  | PyFloat (S754_infinity _) => Raise OverflowError
  | PyFloat (S754_zero _) => Ok 0
  | PyFloat (S754_finite s m e) =>
      let r := nearest_even (Zpos m) e in
      Ok (if s then - r else r)
  end.

(** An int as an exact float operand: mantissa [|z|], exponent 0. *)
Definition exact_of_int (z : Z) : spec_float :=
  match z with
  | Z0 => S754_zero false
  | Zpos p => S754_finite false p 0
  | Zneg p => S754_finite true p 0
  end.

(** [a / b] for two ints: the correctly rounded quotient;
    [ZeroDivisionError] for [b = 0], [OverflowError] when the quotient is
    too large for a float. *)
Definition int_true_divide (a b : Z) : result spec_float :=
  if b =? 0 then Raise ZeroDivisionError
  else
    let q := SFdiv prec emax (exact_of_int a) (exact_of_int b) in
    if finf q then Raise OverflowError else Ok q.

Definition sign_bit (f : spec_float) : bool :=
  match f with
  | S754_zero s | S754_infinity s | S754_finite s _ _ => s
  | S754_nan => false
  end.

Definition fone : spec_float := S754_finite false 4503599627370496 (-52).

(** C's [fmod]: exact, with the sign of [x]. *)
Definition fmod (x y : spec_float) : spec_float :=
  match x, y with
  | S754_nan, _ | _, S754_nan => S754_nan
  | S754_infinity _, _ => S754_nan
  | _, S754_zero _ => S754_nan
  | _, S754_infinity _ => x
  | S754_zero _, _ => x
  | S754_finite sx mx ex, S754_finite _ my ey =>
      let e := Z.min ex ey in
      let r := (Zpos mx * 2 ^ (ex - e)) mod (Zpos my * 2 ^ (ey - e)) in
      binary_normalize prec emax (if sx then - r else r) e sx
  end.

(** C's [floor]. *)
Definition floor (x : spec_float) : spec_float :=
  match x with
  | S754_finite s m e =>
      if 0 <=? e then x
      else
        let d := 2 ^ (- e) in
        let q := Zpos m / d in
        if s then
          binary_normalize prec emax
            (- (if Zpos m mod d =? 0 then q else q + 1)) 0 true
        else binary_normalize prec emax q 0 false
  | _ => x
  end.

(** [vx // wx] for two floats with [wx] nonzero, as the interpreter
    computes it: from [fmod], with the quotient snapped to an integer. *)
Definition float_floor_div (vx wx : spec_float) : spec_float :=
  let m := fmod vx wx in
  let div := SFdiv prec emax (SFsub prec emax vx m) wx in
  let div :=
    if negb (SFeqb m (S754_zero false)) then
      if xorb (SFltb wx (S754_zero false)) (SFltb m (S754_zero false))
      then SFsub prec emax div fone
      else div
    else div in
  if negb (SFeqb div (S754_zero false)) then
    let floordiv := floor div in
    if SFltb half (SFsub prec emax div floordiv)
    then SFadd prec emax floordiv fone
    else floordiv
  else S754_zero (sign_bit (SFdiv prec emax vx wx)).

(** [x * y], [x / y] and [x // y] for an int [x] and a scalar [y]. With a
    float [y] the int is converted first, which may overflow. *)
Definition mul (x : Z) (y : number) : result number :=
  match y with
  | PyInt b => Ok (PyInt (x * b))
  | PyFloat f =>
      a ← float_of_int x;
      Ok (PyFloat (SFmul prec emax a f))
  end.

Definition truediv (x : Z) (y : number) : result number :=
  match y with
  | PyInt b => PyFloat <$> int_true_divide x b
  | PyFloat f =>
      a ← float_of_int x;
      if fzero f then Raise ZeroDivisionError
      else Ok (PyFloat (SFdiv prec emax a f))
  end.

Definition floordiv (x : Z) (y : number) : result number :=
  match y with
  | PyInt b => if b =? 0 then Raise ZeroDivisionError else Ok (PyInt (x / b))
  | PyFloat f =>
      a ← float_of_int x;
      if fzero f then Raise ZeroDivisionError
      else Ok (PyFloat (float_floor_div a f))
  end.

(** *** Strings *)

Definition code (c : ascii) : Z := Z.of_N (N_of_ascii c).

(** [s[i:j]] for [0 <= i <= j]: the characters at positions [i..j-1] that
    exist; never an error. *)
Definition slice (s : string) (i j : nat) : string :=
  String.substring i (j - i) s.

(** [s.startswith(p)]. *)
Fixpoint startswith (s p : string) {struct p} : bool :=
  match p, s with
  | EmptyString, _ => true
  | String a p', String b s' => Ascii.eqb a b && startswith s' p'
  | String _ _, EmptyString => false
  end.

(** [str.replace(old, new)]: the leftmost, non-overlapping occurrences of
    [old] are replaced in one pass from left to right; the text written
    in is not scanned again. [skip] counts the characters of a match that
    are still to be dropped. *)
Fixpoint replace_from (old new : string) (skip : nat) (s : string) : string :=
  match s with
  | EmptyString => EmptyString
  | String c t =>
      match skip with
      | S k => replace_from old new k t
      | O =>
          if startswith s old
          then new +:+ replace_from old new (Nat.pred (String.length old)) t
          else String c (replace_from old new 0 t)
      end
  end.

Fixpoint intersperse (new s : string) : string :=
  match s with
  | EmptyString => new
  | String c t => new +:+ String c (intersperse new t)
  end.

Definition replace (s old new : string) : string :=
  match old with
  | EmptyString => intersperse new s
  | _ => replace_from old new 0 s
  end.

(** White space as [int()] skips it: the ASCII blanks, and the two
    Unicode blanks below 256. *)
Definition is_space (c : ascii) : bool :=
  let n := code c in
  ((9 <=? n) && (n <=? 13)) || (n =? 32) || (n =? 133) || (n =? 160).

(** The value of a digit character, 37 for every other character. *)
Definition digit_value (c : ascii) : Z :=
  let n := code c in
  if (48 <=? n) && (n <=? 57) then n - 48
  else if (97 <=? n) && (n <=? 122) then n - 87
  else if (65 <=? n) && (n <=? 90) then n - 55
  else 37.

Fixpoint lstrip (s : string) : string :=
  match s with
  | EmptyString => EmptyString
  | String c t => if is_space c then lstrip t else s
  end.

Fixpoint all_space (s : string) : bool :=
  match s with
  | EmptyString => true
  | String c t => is_space c && all_space t
  end.

(** The digits of a literal: digits and single underscores between them.
    Returns the value, the number of digits and the text left, or [None]
    for a doubled or trailing underscore. *)
Fixpoint scan_digits (base : Z) (prev_us : bool) (acc : Z) (n : nat)
    (s : string) : option (Z * nat * string) :=
  match s with
  | EmptyString => if prev_us then None else Some (acc, n, s)
  | String c t =>
      if Ascii.eqb c "_" then
        if prev_us then None else scan_digits base true acc n t
      else if digit_value c <? base then
        scan_digits base false (acc * base + digit_value c) (S n) t
      else if prev_us then None else Some (acc, n, s)
  end.

Definition skip_sign (s : string) : bool * string :=
  match s with
  | String c t =>
      if Ascii.eqb c "+" then (false, t)
      else if Ascii.eqb c "-" then (true, t)
      else (false, s)
  | EmptyString => (false, s)
  end.

(** After a [0x] prefix one underscore is allowed. *)
Definition skip_prefix16 (s : string) : string :=
  match s with
  | String c0 (String c1 t) =>
      if Ascii.eqb c0 "0" && (Ascii.eqb c1 "x" || Ascii.eqb c1 "X") then
        match t with
        | String c2 t' => if Ascii.eqb c2 "_" then t' else t
        | EmptyString => t
        end
      else s
  | _ => s
  end.

(** [int(s, 16)]: blanks, a sign, a [0x] prefix, digits, blanks. The
    digits may not start with an underscore, and there is at least one. *)
Definition int16 (s : string) : result Z :=
  let '(neg, s1) := skip_sign (lstrip s) in
  let s2 := skip_prefix16 s1 in
  if startswith s2 "_" then Raise ValueError
  else
    match scan_digits 16 false 0 0 s2 with
    | Some (v, S _, rest) =>
        if all_space rest then Ok (if neg then - v else v)
        else Raise ValueError
    | _ => Raise ValueError
    end.

(** [%x] of a non-negative int. *)
Definition hex_digit (d : Z) : ascii :=
  match String.get (Z.to_nat d) "0123456789abcdef" with
  | Some c => c
  | None => "?"%char
  end.

Fixpoint hex_digits (fuel : nat) (n : Z) (acc : string) : string :=
  match fuel with
  | O => acc
  | S k =>
      let acc' := String (hex_digit (n mod 16)) acc in
      if n / 16 =? 0 then acc' else hex_digits k (n / 16) acc'
  end.

Definition format_x (n : Z) : string :=
  hex_digits (S (Z.to_nat (Z.log2 n))) n EmptyString.

Fixpoint zeros (k : nat) : string :=
  match k with
  | O => EmptyString
  | S k' => String "0" (zeros k')
  end.

Definition zfill (width : nat) (s : string) : string :=
  zeros (width - String.length s) +:+ s.

(** ['%02x' % n]: lowercase hexadecimal, padded with zeros to two
    characters, the sign included. *)
Definition format_02x (n : Z) : string :=
  if n <? 0 then String "-" (zfill 1 (format_x (- n)))
  else zfill 2 (format_x n).

(** *** Lists *)

(** [l[i]] and [l[i] = x] for [0 <= i]: [IndexError] out of range. *)
Definition getitem {A} (l : list A) (i : nat) : result A :=
  match l !! i with
  | Some x => Ok x
  | None => Raise IndexError
  end.

Definition setitem {A} (l : list A) (i : nat) (x : A) : result (list A) :=
  if decide (i < length l)%nat then Ok (<[i:=x]> l) else Raise IndexError.

(** [for x in xs: body], threading the state the body updates. *)
Fixpoint for_each {A S} (xs : list A) (body : S -> A -> result S) (s : S)
    : result S :=
  match xs with
  | [] => Ok s
  | x :: xs' => s' ← body s x; for_each xs' body s'
  end.

Definition range (n : nat) : list nat := seq 0 n.

(** *** Powers *)

(** [pow(a, e, m)] for three ints: [ValueError] for the modulus 0 and for
    a negative exponent whose base has no inverse; the result has the sign
    of the modulus. *)
Definition pow_mod (a e m : Z) : result Z :=
  if m =? 0 then Raise ValueError
  else if Z.abs m =? 1 then Ok 0
  else if e <? 0 then
    if Z.gcd a m =? 1 then Ok ((Z.invmod a (Z.abs m) ^ (- e)) mod m)
    else Raise ValueError
  else Ok ((a ^ e) mod m).

(** What [pow] may return: a number, or a complex number, of which only
    the type matters here. *)
Inductive numeric : Set :=
  | Real (x : number)
  | Complex.

(** [round(v)]: a complex number has no [__round__]. *)
Definition round_numeric (v : numeric) : result Z :=
  match v with
  | Real x => round x
  | Complex => Raise TypeError
  end.

Section Pow.

(** [float.__pow__] on two floats, which ends in the C library's [pow]:
    a parameter. *)
Variable float_pow : spec_float -> spec_float -> result numeric.

(** [pow(base, exp, modulo)] for an int [base]. With a modulus every
    argument must be an int. Without one, an int exponent that is not
    negative gives an int; every other exponent goes through floats. *)
Definition pow (base : Z) (exp : number) (modulo : option number)
    : result numeric :=
  match modulo with
  | Some (PyInt m) =>
      match exp with
      | PyInt e => z ← pow_mod base e m; Ok (Real (PyInt z))
      | PyFloat _ => Raise TypeError
      end
  | Some (PyFloat _) => Raise TypeError
  | None =>
      match exp with
      | PyInt e =>
          if 0 <=? e then Ok (Real (PyInt (base ^ e)))
          else
            a ← float_of_int base;
            b ← float_of_int e;
            float_pow a b
      | PyFloat f =>
          a ← float_of_int base;
          float_pow a f
      end
  end.

End Pow.

(** *** Text of an int *)

(** The decimal digits of [z], after a minus sign when [z] is negative. *)
Definition decimal (z : Z) : string :=
  DecimalString.NilZero.string_of_int (Z.to_int z).

(** How many decimal digits [z] has, its sign not counted. *)
Definition digits (z : Z) : Z :=
  Z.of_nat (String.length (decimal (Z.abs z))).

(** [sys.int_info.default_max_str_digits]: the limit an interpreter
    starts with when nothing sets another one. *)
Definition default_max_str_digits : Z := 4300.

Section Str.

(** [sys.get_int_max_str_digits()], the most digits an int may have when
    it is turned into decimal text. The interpreter accepts 0, which
    switches the limit off, or a limit of at least 640. *)
Variable int_max_str_digits : Z.

(** [str(z)], which is also how an f-string writes an int: the decimal
    text of [z], or [ValueError] when [z] has more digits than the limit
    allows. *)
Definition str_int (z : Z) : result string :=
  if (0 <? int_max_str_digits) && (int_max_str_digits <? digits z)
  then Raise ValueError
  else Ok (decimal z).

End Str.

End Py.


(** ** nikocraft/window/rgb.py *)

Module rgb.
Import Py.

(** *** class RGBColor(tuple) *)

Module RGBColor.

(** The tuple [(red, green, blue)] of three ints. *)
Record t : Set := Build { red : Z; green : Z; blue : Z }.

(** [RGBColor(red, green, blue)]: every argument is rounded. *)
Definition __new__ (red green blue : number) : result t :=
  r ← round red;
  g ← round green;
  b ← round blue;
  Ok (Build r g b).

(** The constructor called on an unpacked list: one element for each of
    the three parameters. *)
Definition __new__star (args : list Z) : result t :=
  match args with
  | [r; g; b] => __new__ (PyInt r) (PyInt g) (PyInt b)
  | _ => Raise TypeError
  end.

Definition hex (self : t) : string :=
  String "#" (format_02x (red self) +:+ format_02x (green self)
              +:+ format_02x (blue self)).

Definition from_hex (value : string) : result t :=
  let value := replace (replace value "#" "") "0x" "" in
  r ← int16 (slice value 0 2);
  g ← int16 (slice value 2 4);
  b ← int16 (slice value 4 6);
  __new__ (PyInt r) (PyInt g) (PyInt b).

Definition to_list (self : t) : list Z := [red self; green self; blue self].

(** The body of the loop of [clamp], for one index [i]. *)
Definition clamp_body (clamped : list Z) (i : nat) : result (list Z) :=
  x ← getitem clamped i;
  if x <? 0 then setitem clamped i 0
  else
    y ← getitem clamped i;
    if 255 <? y then setitem clamped i 255 else Ok clamped.

Definition clamp (self : t) : result t :=
  clamped ← for_each (range 3) clamp_body (to_list self);
  __new__star clamped.

Definition __eq__ (self other : t) : bool :=
  (red self =? red other) && (green self =? green other)
  && (blue self =? blue other).

Definition __ne__ (self other : t) : bool :=
  negb (red self =? red other) || negb (green self =? green other)
  || negb (blue self =? blue other).

Definition __add__ (self other : t) : result t :=
  c ← __new__ (PyInt (red self + red other))
        (PyInt (green self + green other)) (PyInt (blue self + blue other));
  clamp c.

Definition __sub__ (self other : t) : result t :=
  c ← __new__ (PyInt (red self - red other))
        (PyInt (green self - green other)) (PyInt (blue self - blue other));
  clamp c.

Definition __mul__ (self : t) (factor : number) : result t :=
  r ← mul (red self) factor;
  g ← mul (green self) factor;
  b ← mul (blue self) factor;
  c ← __new__ r g b;
  clamp c.

Definition __truediv__ (self : t) (divisor : number) : result t :=
  r ← truediv (red self) divisor;
  g ← truediv (green self) divisor;
  b ← truediv (blue self) divisor;
  c ← __new__ r g b;
  clamp c.

Definition __floordiv__ (self : t) (divisor : number) : result t :=
  r ← floordiv (red self) divisor;
  g ← floordiv (green self) divisor;
  b ← floordiv (blue self) divisor;
  c ← __new__ r g b;
  clamp c.

Definition mix (self color : t) : result t :=
  s ← __add__ self color;
  m ← __mul__ s (PyFloat half);
  clamp m.

(** [rgba(value)]: the three channels and the given fourth component. *)
Definition rgba {A : Type} (self : t) (value : A) : Z * Z * Z * A :=
  (red self, green self, blue self, value).

(** The default of the parameter [keys] of [dict]. *)
Definition default_keys : list string := ["red"; "green"; "blue"].

(** [dict(keys)]: a dictionary display with the entries in the order
    red, green, blue; an entry written later replaces an earlier one with
    the same key. *)
Definition dict (self : t) (keys : list string) : result (gmap string Z) :=
  k0 ← getitem keys 0;
  k1 ← getitem keys 1;
  k2 ← getitem keys 2;
  Ok (<[k2 := blue self]> (<[k1 := green self]> (<[k0 := red self]> ∅))).

(** The constructor on what [pow] returns. *)
Definition __new__numeric (red green blue : numeric) : result t :=
  r ← round_numeric red;
  g ← round_numeric green;
  b ← round_numeric blue;
  Ok (Build r g b).

Definition __pow__ (float_pow : spec_float -> spec_float -> result numeric)
    (self : t) (power : number) (modulo : option number) : result t :=
  r ← pow float_pow (red self) power modulo;
  g ← pow float_pow (green self) power modulo;
  b ← pow float_pow (blue self) power modulo;
  c ← __new__numeric r g b;
  clamp c.

(** [str(self)]: the three channels in decimal, in parentheses. The
    f-string writes them from left to right, under the interpreter's
    limit [int_max_str_digits] on the digits of an int. *)
Definition __str__ (int_max_str_digits : Z) (self : t) : result string :=
  r ← str_int int_max_str_digits (red self);
  g ← str_int int_max_str_digits (green self);
  b ← str_int int_max_str_digits (blue self);
  Ok ("(" +:+ r +:+ ", " +:+ g +:+ ", " +:+ b +:+ ")").

End RGBColor.

(** *** class RGB(Enum)

    The class body binds each name to a colour, in this order. *)

Module RGB.

Definition members : list (string * RGBColor.t) := [
    ("ALICEBLUE", RGBColor.Build 240 248 255);
    ("ANTIQUEWHITE", RGBColor.Build 250 235 215);
    ("ANTIQUEWHITE1", RGBColor.Build 255 239 219);
    ("ANTIQUEWHITE2", RGBColor.Build 238 223 204);
    ("ANTIQUEWHITE3", RGBColor.Build 205 192 176);
    ("ANTIQUEWHITE4", RGBColor.Build 139 131 120);
    ("AQUA", RGBColor.Build 0 255 255);
    ("AQUAMARINE1", RGBColor.Build 127 255 212);
    ("AQUAMARINE2", RGBColor.Build 118 238 198);
    ("AQUAMARINE3", RGBColor.Build 102 205 170);
    ("AQUAMARINE4", RGBColor.Build 69 139 116);
    ("AZURE1", RGBColor.Build 240 255 255);
    ("AZURE2", RGBColor.Build 224 238 238);
    ("AZURE3", RGBColor.Build 193 205 205);
    ("AZURE4", RGBColor.Build 131 139 139);
    ("BANANA", RGBColor.Build 227 207 87);
    ("BEIGE", RGBColor.Build 245 245 220);
    ("BISQUE1", RGBColor.Build 255 228 196);
    ("BISQUE2", RGBColor.Build 238 213 183);
    ("BISQUE3", RGBColor.Build 205 183 158);
    ("BISQUE4", RGBColor.Build 139 125 107);
    ("BLACK", RGBColor.Build 0 0 0);
    ("BLANCHEDALMOND", RGBColor.Build 255 235 205);
    ("BLUE", RGBColor.Build 0 0 255);
    ("BLUE2", RGBColor.Build 0 0 238);
    ("BLUE3", RGBColor.Build 0 0 205);
    ("BLUE4", RGBColor.Build 0 0 139);
    ("BLUEVIOLET", RGBColor.Build 138 43 226);
    ("BRICK", RGBColor.Build 156 102 31);
    ("BROWN", RGBColor.Build 165 42 42);
    ("BROWN1", RGBColor.Build 255 64 64);
    ("BROWN2", RGBColor.Build 238 59 59);
    ("BROWN3", RGBColor.Build 205 51 51);
    ("BROWN4", RGBColor.Build 139 35 35);
    ("BURLYWOOD", RGBColor.Build 222 184 135);
    ("BURLYWOOD1", RGBColor.Build 255 211 155);
    ("BURLYWOOD2", RGBColor.Build 238 197 145);
    ("BURLYWOOD3", RGBColor.Build 205 170 125);
    ("BURLYWOOD4", RGBColor.Build 139 115 85);
    ("BURNTSIENNA", RGBColor.Build 138 54 15);
    ("BURNTUMBER", RGBColor.Build 138 51 36);
    ("CADETBLUE", RGBColor.Build 95 158 160);
    ("CADETBLUE1", RGBColor.Build 152 245 255);
    ("CADETBLUE2", RGBColor.Build 142 229 238);
    ("CADETBLUE3", RGBColor.Build 122 197 205);
    ("CADETBLUE4", RGBColor.Build 83 134 139);
    ("CADMIUMORANGE", RGBColor.Build 255 97 3);
    ("CADMIUMYELLOW", RGBColor.Build 255 153 18);
    ("CARROT", RGBColor.Build 237 145 33);
    ("CHARTREUSE1", RGBColor.Build 127 255 0);
    ("CHARTREUSE2", RGBColor.Build 118 238 0);
    ("CHARTREUSE3", RGBColor.Build 102 205 0);
    ("CHARTREUSE4", RGBColor.Build 69 139 0);
    ("CHOCOLATE", RGBColor.Build 210 105 30);
    ("CHOCOLATE1", RGBColor.Build 255 127 36);
    ("CHOCOLATE2", RGBColor.Build 238 118 33);
    ("CHOCOLATE3", RGBColor.Build 205 102 29);
    ("CHOCOLATE4", RGBColor.Build 139 69 19);
    ("COBALT", RGBColor.Build 61 89 171);
    ("COBALTGREEN", RGBColor.Build 61 145 64);
    ("COLDGREY", RGBColor.Build 128 138 135);
    ("CORAL", RGBColor.Build 255 127 80);
    ("CORAL1", RGBColor.Build 255 114 86);
    ("CORAL2", RGBColor.Build 238 106 80);
    ("CORAL3", RGBColor.Build 205 91 69);
    ("CORAL4", RGBColor.Build 139 62 47);
    ("CORNFLOWERBLUE", RGBColor.Build 100 149 237);
    ("CORNSILK1", RGBColor.Build 255 248 220);
    ("CORNSILK2", RGBColor.Build 238 232 205);
    ("CORNSILK3", RGBColor.Build 205 200 177);
    ("CORNSILK4", RGBColor.Build 139 136 120);
    ("CRIMSON", RGBColor.Build 220 20 60);
    ("CYAN2", RGBColor.Build 0 238 238);
    ("CYAN3", RGBColor.Build 0 205 205);
    ("CYAN4", RGBColor.Build 0 139 139);
    ("DARKGOLDENROD", RGBColor.Build 184 134 11);
    ("DARKGOLDENROD1", RGBColor.Build 255 185 15);
    ("DARKGOLDENROD2", RGBColor.Build 238 173 14);
    ("DARKGOLDENROD3", RGBColor.Build 205 149 12);
    ("DARKGOLDENROD4", RGBColor.Build 139 101 8);
    ("DARKGRAY", RGBColor.Build 169 169 169);
    ("DARKGREEN", RGBColor.Build 0 100 0);
    ("DARKKHAKI", RGBColor.Build 189 183 107);
    ("DARKOLIVEGREEN", RGBColor.Build 85 107 47);
    ("DARKOLIVEGREEN1", RGBColor.Build 202 255 112);
    ("DARKOLIVEGREEN2", RGBColor.Build 188 238 104);
    ("DARKOLIVEGREEN3", RGBColor.Build 162 205 90);
    ("DARKOLIVEGREEN4", RGBColor.Build 110 139 61);
    ("DARKORANGE", RGBColor.Build 255 140 0);
    ("DARKORANGE1", RGBColor.Build 255 127 0);
    ("DARKORANGE2", RGBColor.Build 238 118 0);
    ("DARKORANGE3", RGBColor.Build 205 102 0);
    ("DARKORANGE4", RGBColor.Build 139 69 0);
    ("DARKORCHID", RGBColor.Build 153 50 204);
    ("DARKORCHID1", RGBColor.Build 191 62 255);
    ("DARKORCHID2", RGBColor.Build 178 58 238);
    ("DARKORCHID3", RGBColor.Build 154 50 205);
    ("DARKORCHID4", RGBColor.Build 104 34 139);
    ("DARKSALMON", RGBColor.Build 233 150 122);
    ("DARKSEAGREEN", RGBColor.Build 143 188 143);
    ("DARKSEAGREEN1", RGBColor.Build 193 255 193);
    ("DARKSEAGREEN2", RGBColor.Build 180 238 180);
    ("DARKSEAGREEN3", RGBColor.Build 155 205 155);
    ("DARKSEAGREEN4", RGBColor.Build 105 139 105);
    ("DARKSLATEBLUE", RGBColor.Build 72 61 139);
    ("DARKSLATEGRAY", RGBColor.Build 47 79 79);
    ("DARKSLATEGRAY1", RGBColor.Build 151 255 255);
    ("DARKSLATEGRAY2", RGBColor.Build 141 238 238);
    ("DARKSLATEGRAY3", RGBColor.Build 121 205 205);
    ("DARKSLATEGRAY4", RGBColor.Build 82 139 139);
    ("DARKTURQUOISE", RGBColor.Build 0 206 209);
    ("DARKVIOLET", RGBColor.Build 148 0 211);
    ("DEEPPINK1", RGBColor.Build 255 20 147);
    ("DEEPPINK2", RGBColor.Build 238 18 137);
    ("DEEPPINK3", RGBColor.Build 205 16 118);
    ("DEEPPINK4", RGBColor.Build 139 10 80);
    ("DEEPSKYBLUE1", RGBColor.Build 0 191 255);
    ("DEEPSKYBLUE2", RGBColor.Build 0 178 238);
    ("DEEPSKYBLUE3", RGBColor.Build 0 154 205);
    ("DEEPSKYBLUE4", RGBColor.Build 0 104 139);
    ("DIMGRAY", RGBColor.Build 105 105 105);
    ("DODGERBLUE1", RGBColor.Build 30 144 255);
    ("DODGERBLUE2", RGBColor.Build 28 134 238);
    ("DODGERBLUE3", RGBColor.Build 24 116 205);
    ("DODGERBLUE4", RGBColor.Build 16 78 139);
    ("EGGSHELL", RGBColor.Build 252 230 201);
    ("EMERALDGREEN", RGBColor.Build 0 201 87);
    ("FIREBRICK", RGBColor.Build 178 34 34);
    ("FIREBRICK1", RGBColor.Build 255 48 48);
    ("FIREBRICK2", RGBColor.Build 238 44 44);
    ("FIREBRICK3", RGBColor.Build 205 38 38);
    ("FIREBRICK4", RGBColor.Build 139 26 26);
    ("FLESH", RGBColor.Build 255 125 64);
    ("FLORALWHITE", RGBColor.Build 255 250 240);
    ("FORESTGREEN", RGBColor.Build 34 139 34);
    ("GAINSBORO", RGBColor.Build 220 220 220);
    ("GHOSTWHITE", RGBColor.Build 248 248 255);
    ("GOLD1", RGBColor.Build 255 215 0);
    ("GOLD2", RGBColor.Build 238 201 0);
    ("GOLD3", RGBColor.Build 205 173 0);
    ("GOLD4", RGBColor.Build 139 117 0);
    ("GOLDENROD", RGBColor.Build 218 165 32);
    ("GOLDENROD1", RGBColor.Build 255 193 37);
    ("GOLDENROD2", RGBColor.Build 238 180 34);
    ("GOLDENROD3", RGBColor.Build 205 155 29);
    ("GOLDENROD4", RGBColor.Build 139 105 20);
    ("GRAY", RGBColor.Build 128 128 128);
    ("GRAY1", RGBColor.Build 3 3 3);
    ("GRAY10", RGBColor.Build 26 26 26);
    ("GRAY11", RGBColor.Build 28 28 28);
    ("GRAY12", RGBColor.Build 31 31 31);
    ("GRAY13", RGBColor.Build 33 33 33);
    ("GRAY14", RGBColor.Build 36 36 36);
    ("GRAY15", RGBColor.Build 38 38 38);
    ("GRAY16", RGBColor.Build 41 41 41);
    ("GRAY17", RGBColor.Build 43 43 43);
    ("GRAY18", RGBColor.Build 46 46 46);
    ("GRAY19", RGBColor.Build 48 48 48);
    ("GRAY2", RGBColor.Build 5 5 5);
    ("GRAY20", RGBColor.Build 51 51 51);
    ("GRAY21", RGBColor.Build 54 54 54);
    ("GRAY22", RGBColor.Build 56 56 56);
    ("GRAY23", RGBColor.Build 59 59 59);
    ("GRAY24", RGBColor.Build 61 61 61);
    ("GRAY25", RGBColor.Build 64 64 64);
    ("GRAY26", RGBColor.Build 66 66 66);
    ("GRAY27", RGBColor.Build 69 69 69);
    ("GRAY28", RGBColor.Build 71 71 71);
    ("GRAY29", RGBColor.Build 74 74 74);
    ("GRAY3", RGBColor.Build 8 8 8);
    ("GRAY30", RGBColor.Build 77 77 77);
    ("GRAY31", RGBColor.Build 79 79 79);
    ("GRAY32", RGBColor.Build 82 82 82);
    ("GRAY33", RGBColor.Build 84 84 84);
    ("GRAY34", RGBColor.Build 87 87 87);
    ("GRAY35", RGBColor.Build 89 89 89);
    ("GRAY36", RGBColor.Build 92 92 92);
    ("GRAY37", RGBColor.Build 94 94 94);
    ("GRAY38", RGBColor.Build 97 97 97);
    ("GRAY39", RGBColor.Build 99 99 99);
    ("GRAY4", RGBColor.Build 10 10 10);
    ("GRAY40", RGBColor.Build 102 102 102);
    ("GRAY42", RGBColor.Build 107 107 107);
    ("GRAY43", RGBColor.Build 110 110 110);
    ("GRAY44", RGBColor.Build 112 112 112);
    ("GRAY45", RGBColor.Build 115 115 115);
    ("GRAY46", RGBColor.Build 117 117 117);
    ("GRAY47", RGBColor.Build 120 120 120);
    ("GRAY48", RGBColor.Build 122 122 122);
    ("GRAY49", RGBColor.Build 125 125 125);
    ("GRAY5", RGBColor.Build 13 13 13);
    ("GRAY50", RGBColor.Build 127 127 127);
    ("GRAY51", RGBColor.Build 130 130 130);
    ("GRAY52", RGBColor.Build 133 133 133);
    ("GRAY53", RGBColor.Build 135 135 135);
    ("GRAY54", RGBColor.Build 138 138 138);
    ("GRAY55", RGBColor.Build 140 140 140);
    ("GRAY56", RGBColor.Build 143 143 143);
    ("GRAY57", RGBColor.Build 145 145 145);
    ("GRAY58", RGBColor.Build 148 148 148);
    ("GRAY59", RGBColor.Build 150 150 150);
    ("GRAY6", RGBColor.Build 15 15 15);
    ("GRAY60", RGBColor.Build 153 153 153);
    ("GRAY61", RGBColor.Build 156 156 156);
    ("GRAY62", RGBColor.Build 158 158 158);
    ("GRAY63", RGBColor.Build 161 161 161);
    ("GRAY64", RGBColor.Build 163 163 163);
    ("GRAY65", RGBColor.Build 166 166 166);
    ("GRAY66", RGBColor.Build 168 168 168);
    ("GRAY67", RGBColor.Build 171 171 171);
    ("GRAY68", RGBColor.Build 173 173 173);
    ("GRAY69", RGBColor.Build 176 176 176);
    ("GRAY7", RGBColor.Build 18 18 18);
    ("GRAY70", RGBColor.Build 179 179 179);
    ("GRAY71", RGBColor.Build 181 181 181);
    ("GRAY72", RGBColor.Build 184 184 184);
    ("GRAY73", RGBColor.Build 186 186 186);
    ("GRAY74", RGBColor.Build 189 189 189);
    ("GRAY75", RGBColor.Build 191 191 191);
    ("GRAY76", RGBColor.Build 194 194 194);
    ("GRAY77", RGBColor.Build 196 196 196);
    ("GRAY78", RGBColor.Build 199 199 199);
    ("GRAY79", RGBColor.Build 201 201 201);
    ("GRAY8", RGBColor.Build 20 20 20);
    ("GRAY80", RGBColor.Build 204 204 204);
    ("GRAY81", RGBColor.Build 207 207 207);
    ("GRAY82", RGBColor.Build 209 209 209);
    ("GRAY83", RGBColor.Build 212 212 212);
    ("GRAY84", RGBColor.Build 214 214 214);
    ("GRAY85", RGBColor.Build 217 217 217);
    ("GRAY86", RGBColor.Build 219 219 219);
    ("GRAY87", RGBColor.Build 222 222 222);
    ("GRAY88", RGBColor.Build 224 224 224);
    ("GRAY89", RGBColor.Build 227 227 227);
    ("GRAY9", RGBColor.Build 23 23 23);
    ("GRAY90", RGBColor.Build 229 229 229);
    ("GRAY91", RGBColor.Build 232 232 232);
    ("GRAY92", RGBColor.Build 235 235 235);
    ("GRAY93", RGBColor.Build 237 237 237);
    ("GRAY94", RGBColor.Build 240 240 240);
    ("GRAY95", RGBColor.Build 242 242 242);
    ("GRAY97", RGBColor.Build 247 247 247);
    ("GRAY98", RGBColor.Build 250 250 250);
    ("GRAY99", RGBColor.Build 252 252 252);
    ("GREEN", RGBColor.Build 0 128 0);
    ("GREEN1", RGBColor.Build 0 255 0);
    ("GREEN2", RGBColor.Build 0 238 0);
    ("GREEN3", RGBColor.Build 0 205 0);
    ("GREEN4", RGBColor.Build 0 139 0);
    ("GREENYELLOW", RGBColor.Build 173 255 47);
    ("HONEYDEW1", RGBColor.Build 240 255 240);
    ("HONEYDEW2", RGBColor.Build 224 238 224);
    ("HONEYDEW3", RGBColor.Build 193 205 193);
    ("HONEYDEW4", RGBColor.Build 131 139 131);
    ("HOTPINK", RGBColor.Build 255 105 180);
    ("HOTPINK1", RGBColor.Build 255 110 180);
    ("HOTPINK2", RGBColor.Build 238 106 167);
    ("HOTPINK3", RGBColor.Build 205 96 144);
    ("HOTPINK4", RGBColor.Build 139 58 98);
    ("INDIANRED", RGBColor.Build 205 92 92);
    ("INDIANRED1", RGBColor.Build 255 106 106);
    ("INDIANRED2", RGBColor.Build 238 99 99);
    ("INDIANRED3", RGBColor.Build 205 85 85);
    ("INDIANRED4", RGBColor.Build 139 58 58);
    ("INDIGO", RGBColor.Build 75 0 130);
    ("IVORY1", RGBColor.Build 255 255 240);
    ("IVORY2", RGBColor.Build 238 238 224);
    ("IVORY3", RGBColor.Build 205 205 193);
    ("IVORY4", RGBColor.Build 139 139 131);
    ("IVORYBLACK", RGBColor.Build 41 36 33);
    ("KHAKI", RGBColor.Build 240 230 140);
    ("KHAKI1", RGBColor.Build 255 246 143);
    ("KHAKI2", RGBColor.Build 238 230 133);
    ("KHAKI3", RGBColor.Build 205 198 115);
    ("KHAKI4", RGBColor.Build 139 134 78);
    ("LAVENDER", RGBColor.Build 230 230 250);
    ("LAVENDERBLUSH1", RGBColor.Build 255 240 245);
    ("LAVENDERBLUSH2", RGBColor.Build 238 224 229);
    ("LAVENDERBLUSH3", RGBColor.Build 205 193 197);
    ("LAVENDERBLUSH4", RGBColor.Build 139 131 134);
    ("LAWNGREEN", RGBColor.Build 124 252 0);
    ("LEMONCHIFFON1", RGBColor.Build 255 250 205);
    ("LEMONCHIFFON2", RGBColor.Build 238 233 191);
    ("LEMONCHIFFON3", RGBColor.Build 205 201 165);
    ("LEMONCHIFFON4", RGBColor.Build 139 137 112);
    ("LIGHTBLUE", RGBColor.Build 173 216 230);
    ("LIGHTBLUE1", RGBColor.Build 191 239 255);
    ("LIGHTBLUE2", RGBColor.Build 178 223 238);
    ("LIGHTBLUE3", RGBColor.Build 154 192 205);
    ("LIGHTBLUE4", RGBColor.Build 104 131 139);
    ("LIGHTCORAL", RGBColor.Build 240 128 128);
    ("LIGHTCYAN1", RGBColor.Build 224 255 255);
    ("LIGHTCYAN2", RGBColor.Build 209 238 238);
    ("LIGHTCYAN3", RGBColor.Build 180 205 205);
    ("LIGHTCYAN4", RGBColor.Build 122 139 139);
    ("LIGHTGOLDENROD1", RGBColor.Build 255 236 139);
    ("LIGHTGOLDENROD2", RGBColor.Build 238 220 130);
    ("LIGHTGOLDENROD3", RGBColor.Build 205 190 112);
    ("LIGHTGOLDENROD4", RGBColor.Build 139 129 76);
    ("LIGHTGOLDENRODYELLOW", RGBColor.Build 250 250 210);
    ("LIGHTGREY", RGBColor.Build 211 211 211);
    ("LIGHTPINK", RGBColor.Build 255 182 193);
    ("LIGHTPINK1", RGBColor.Build 255 174 185);
    ("LIGHTPINK2", RGBColor.Build 238 162 173);
    ("LIGHTPINK3", RGBColor.Build 205 140 149);
    ("LIGHTPINK4", RGBColor.Build 139 95 101);
    ("LIGHTSALMON1", RGBColor.Build 255 160 122);
    ("LIGHTSALMON2", RGBColor.Build 238 149 114);
    ("LIGHTSALMON3", RGBColor.Build 205 129 98);
    ("LIGHTSALMON4", RGBColor.Build 139 87 66);
    ("LIGHTSEAGREEN", RGBColor.Build 32 178 170);
    ("LIGHTSKYBLUE", RGBColor.Build 135 206 250);
    ("LIGHTSKYBLUE1", RGBColor.Build 176 226 255);
    ("LIGHTSKYBLUE2", RGBColor.Build 164 211 238);
    ("LIGHTSKYBLUE3", RGBColor.Build 141 182 205);
    ("LIGHTSKYBLUE4", RGBColor.Build 96 123 139);
    ("LIGHTSLATEBLUE", RGBColor.Build 132 112 255);
    ("LIGHTSLATEGRAY", RGBColor.Build 119 136 153);
    ("LIGHTSTEELBLUE", RGBColor.Build 176 196 222);
    ("LIGHTSTEELBLUE1", RGBColor.Build 202 225 255);
    ("LIGHTSTEELBLUE2", RGBColor.Build 188 210 238);
    ("LIGHTSTEELBLUE3", RGBColor.Build 162 181 205);
    ("LIGHTSTEELBLUE4", RGBColor.Build 110 123 139);
    ("LIGHTYELLOW1", RGBColor.Build 255 255 224);
    ("LIGHTYELLOW2", RGBColor.Build 238 238 209);
    ("LIGHTYELLOW3", RGBColor.Build 205 205 180);
    ("LIGHTYELLOW4", RGBColor.Build 139 139 122);
    ("LIMEGREEN", RGBColor.Build 50 205 50);
    ("LINEN", RGBColor.Build 250 240 230);
    ("MAGENTA", RGBColor.Build 255 0 255);
    ("MAGENTA2", RGBColor.Build 238 0 238);
    ("MAGENTA3", RGBColor.Build 205 0 205);
    ("MAGENTA4", RGBColor.Build 139 0 139);
    ("MANGANESEBLUE", RGBColor.Build 3 168 158);
    ("MAROON", RGBColor.Build 128 0 0);
    ("MAROON1", RGBColor.Build 255 52 179);
    ("MAROON2", RGBColor.Build 238 48 167);
    ("MAROON3", RGBColor.Build 205 41 144);
    ("MAROON4", RGBColor.Build 139 28 98);
    ("MEDIUMORCHID", RGBColor.Build 186 85 211);
    ("MEDIUMORCHID1", RGBColor.Build 224 102 255);
    ("MEDIUMORCHID2", RGBColor.Build 209 95 238);
    ("MEDIUMORCHID3", RGBColor.Build 180 82 205);
    ("MEDIUMORCHID4", RGBColor.Build 122 55 139);
    ("MEDIUMPURPLE", RGBColor.Build 147 112 219);
    ("MEDIUMPURPLE1", RGBColor.Build 171 130 255);
    ("MEDIUMPURPLE2", RGBColor.Build 159 121 238);
    ("MEDIUMPURPLE3", RGBColor.Build 137 104 205);
    ("MEDIUMPURPLE4", RGBColor.Build 93 71 139);
    ("MEDIUMSEAGREEN", RGBColor.Build 60 179 113);
    ("MEDIUMSLATEBLUE", RGBColor.Build 123 104 238);
    ("MEDIUMSPRINGGREEN", RGBColor.Build 0 250 154);
    ("MEDIUMTURQUOISE", RGBColor.Build 72 209 204);
    ("MEDIUMVIOLETRED", RGBColor.Build 199 21 133);
    ("MELON", RGBColor.Build 227 168 105);
    ("MIDNIGHTBLUE", RGBColor.Build 25 25 112);
    ("MINT", RGBColor.Build 189 252 201);
    ("MINTCREAM", RGBColor.Build 245 255 250);
    ("MISTYROSE1", RGBColor.Build 255 228 225);
    ("MISTYROSE2", RGBColor.Build 238 213 210);
    ("MISTYROSE3", RGBColor.Build 205 183 181);
    ("MISTYROSE4", RGBColor.Build 139 125 123);
    ("MOCCASIN", RGBColor.Build 255 228 181);
    ("NAVAJOWHITE1", RGBColor.Build 255 222 173);
    ("NAVAJOWHITE2", RGBColor.Build 238 207 161);
    ("NAVAJOWHITE3", RGBColor.Build 205 179 139);
    ("NAVAJOWHITE4", RGBColor.Build 139 121 94);
    ("NAVY", RGBColor.Build 0 0 128);
    ("OLDLACE", RGBColor.Build 253 245 230);
    ("OLIVE", RGBColor.Build 128 128 0);
    ("OLIVEDRAB", RGBColor.Build 107 142 35);
    ("OLIVEDRAB1", RGBColor.Build 192 255 62);
    ("OLIVEDRAB2", RGBColor.Build 179 238 58);
    ("OLIVEDRAB3", RGBColor.Build 154 205 50);
    ("OLIVEDRAB4", RGBColor.Build 105 139 34);
    ("ORANGE", RGBColor.Build 255 128 0);
    ("ORANGE1", RGBColor.Build 255 165 0);
    ("ORANGE2", RGBColor.Build 238 154 0);
    ("ORANGE3", RGBColor.Build 205 133 0);
    ("ORANGE4", RGBColor.Build 139 90 0);
    ("ORANGERED1", RGBColor.Build 255 69 0);
    ("ORANGERED2", RGBColor.Build 238 64 0);
    ("ORANGERED3", RGBColor.Build 205 55 0);
    ("ORANGERED4", RGBColor.Build 139 37 0);
    ("ORCHID", RGBColor.Build 218 112 214);
    ("ORCHID1", RGBColor.Build 255 131 250);
    ("ORCHID2", RGBColor.Build 238 122 233);
    ("ORCHID3", RGBColor.Build 205 105 201);
    ("ORCHID4", RGBColor.Build 139 71 137);
    ("PALEGOLDENROD", RGBColor.Build 238 232 170);
    ("PALEGREEN", RGBColor.Build 152 251 152);
    ("PALEGREEN1", RGBColor.Build 154 255 154);
    ("PALEGREEN2", RGBColor.Build 144 238 144);
    ("PALEGREEN3", RGBColor.Build 124 205 124);
    ("PALEGREEN4", RGBColor.Build 84 139 84);
    ("PALETURQUOISE1", RGBColor.Build 187 255 255);
    ("PALETURQUOISE2", RGBColor.Build 174 238 238);
    ("PALETURQUOISE3", RGBColor.Build 150 205 205);
    ("PALETURQUOISE4", RGBColor.Build 102 139 139);
    ("PALEVIOLETRED", RGBColor.Build 219 112 147);
    ("PALEVIOLETRED1", RGBColor.Build 255 130 171);
    ("PALEVIOLETRED2", RGBColor.Build 238 121 159);
    ("PALEVIOLETRED3", RGBColor.Build 205 104 137);
    ("PALEVIOLETRED4", RGBColor.Build 139 71 93);
    ("PAPAYAWHIP", RGBColor.Build 255 239 213);
    ("PEACHPUFF1", RGBColor.Build 255 218 185);
    ("PEACHPUFF2", RGBColor.Build 238 203 173);
    ("PEACHPUFF3", RGBColor.Build 205 175 149);
    ("PEACHPUFF4", RGBColor.Build 139 119 101);
    ("PEACOCK", RGBColor.Build 51 161 201);
    ("PINK", RGBColor.Build 255 192 203);
    ("PINK1", RGBColor.Build 255 181 197);
    ("PINK2", RGBColor.Build 238 169 184);
    ("PINK3", RGBColor.Build 205 145 158);
    ("PINK4", RGBColor.Build 139 99 108);
    ("PLUM", RGBColor.Build 221 160 221);
    ("PLUM1", RGBColor.Build 255 187 255);
    ("PLUM2", RGBColor.Build 238 174 238);
    ("PLUM3", RGBColor.Build 205 150 205);
    ("PLUM4", RGBColor.Build 139 102 139);
    ("POWDERBLUE", RGBColor.Build 176 224 230);
    ("PURPLE", RGBColor.Build 128 0 128);
    ("PURPLE1", RGBColor.Build 155 48 255);
    ("PURPLE2", RGBColor.Build 145 44 238);
    ("PURPLE3", RGBColor.Build 125 38 205);
    ("PURPLE4", RGBColor.Build 85 26 139);
    ("RASPBERRY", RGBColor.Build 135 38 87);
    ("RAWSIENNA", RGBColor.Build 199 97 20);
    ("RED1", RGBColor.Build 255 0 0);
    ("RED2", RGBColor.Build 238 0 0);
    ("RED3", RGBColor.Build 205 0 0);
    ("RED4", RGBColor.Build 139 0 0);
    ("ROSYBROWN", RGBColor.Build 188 143 143);
    ("ROSYBROWN1", RGBColor.Build 255 193 193);
    ("ROSYBROWN2", RGBColor.Build 238 180 180);
    ("ROSYBROWN3", RGBColor.Build 205 155 155);
    ("ROSYBROWN4", RGBColor.Build 139 105 105);
    ("ROYALBLUE", RGBColor.Build 65 105 225);
    ("ROYALBLUE1", RGBColor.Build 72 118 255);
    ("ROYALBLUE2", RGBColor.Build 67 110 238);
    ("ROYALBLUE3", RGBColor.Build 58 95 205);
    ("ROYALBLUE4", RGBColor.Build 39 64 139);
    ("SALMON", RGBColor.Build 250 128 114);
    ("SALMON1", RGBColor.Build 255 140 105);
    ("SALMON2", RGBColor.Build 238 130 98);
    ("SALMON3", RGBColor.Build 205 112 84);
    ("SALMON4", RGBColor.Build 139 76 57);
    ("SANDYBROWN", RGBColor.Build 244 164 96);
    ("SAPGREEN", RGBColor.Build 48 128 20);
    ("SEAGREEN1", RGBColor.Build 84 255 159);
    ("SEAGREEN2", RGBColor.Build 78 238 148);
    ("SEAGREEN3", RGBColor.Build 67 205 128);
    ("SEAGREEN4", RGBColor.Build 46 139 87);
    ("SEASHELL1", RGBColor.Build 255 245 238);
    ("SEASHELL2", RGBColor.Build 238 229 222);
    ("SEASHELL3", RGBColor.Build 205 197 191);
    ("SEASHELL4", RGBColor.Build 139 134 130);
    ("SEPIA", RGBColor.Build 94 38 18);
    ("SGIBEET", RGBColor.Build 142 56 142);
    ("SGIBRIGHTGRAY", RGBColor.Build 197 193 170);
    ("SGICHARTREUSE", RGBColor.Build 113 198 113);
    ("SGIDARKGRAY", RGBColor.Build 85 85 85);
    ("SGIGRAY12", RGBColor.Build 30 30 30);
    ("SGIGRAY16", RGBColor.Build 40 40 40);
    ("SGIGRAY32", RGBColor.Build 81 81 81);
    ("SGIGRAY36", RGBColor.Build 91 91 91);
    ("SGIGRAY52", RGBColor.Build 132 132 132);
    ("SGIGRAY56", RGBColor.Build 142 142 142);
    ("SGIGRAY72", RGBColor.Build 183 183 183);
    ("SGIGRAY76", RGBColor.Build 193 193 193);
    ("SGIGRAY92", RGBColor.Build 234 234 234);
    ("SGIGRAY96", RGBColor.Build 244 244 244);
    ("SGILIGHTBLUE", RGBColor.Build 125 158 192);
    ("SGILIGHTGRAY", RGBColor.Build 170 170 170);
    ("SGIOLIVEDRAB", RGBColor.Build 142 142 56);
    ("SGISALMON", RGBColor.Build 198 113 113);
    ("SGISLATEBLUE", RGBColor.Build 113 113 198);
    ("SGITEAL", RGBColor.Build 56 142 142);
    ("SIENNA", RGBColor.Build 160 82 45);
    ("SIENNA1", RGBColor.Build 255 130 71);
    ("SIENNA2", RGBColor.Build 238 121 66);
    ("SIENNA3", RGBColor.Build 205 104 57);
    ("SIENNA4", RGBColor.Build 139 71 38);
    ("SILVER", RGBColor.Build 192 192 192);
    ("SKYBLUE", RGBColor.Build 135 206 235);
    ("SKYBLUE1", RGBColor.Build 135 206 255);
    ("SKYBLUE2", RGBColor.Build 126 192 238);
    ("SKYBLUE3", RGBColor.Build 108 166 205);
    ("SKYBLUE4", RGBColor.Build 74 112 139);
    ("SLATEBLUE", RGBColor.Build 106 90 205);
    ("SLATEBLUE1", RGBColor.Build 131 111 255);
    ("SLATEBLUE2", RGBColor.Build 122 103 238);
    ("SLATEBLUE3", RGBColor.Build 105 89 205);
    ("SLATEBLUE4", RGBColor.Build 71 60 139);
    ("SLATEGRAY", RGBColor.Build 112 128 144);
    ("SLATEGRAY1", RGBColor.Build 198 226 255);
    ("SLATEGRAY2", RGBColor.Build 185 211 238);
    ("SLATEGRAY3", RGBColor.Build 159 182 205);
    ("SLATEGRAY4", RGBColor.Build 108 123 139);
    ("SNOW1", RGBColor.Build 255 250 250);
    ("SNOW2", RGBColor.Build 238 233 233);
    ("SNOW3", RGBColor.Build 205 201 201);
    ("SNOW4", RGBColor.Build 139 137 137);
    ("SPRINGGREEN", RGBColor.Build 0 255 127);
    ("SPRINGGREEN1", RGBColor.Build 0 238 118);
    ("SPRINGGREEN2", RGBColor.Build 0 205 102);
    ("SPRINGGREEN3", RGBColor.Build 0 139 69);
    ("STEELBLUE", RGBColor.Build 70 130 180);
    ("STEELBLUE1", RGBColor.Build 99 184 255);
    ("STEELBLUE2", RGBColor.Build 92 172 238);
    ("STEELBLUE3", RGBColor.Build 79 148 205);
    ("STEELBLUE4", RGBColor.Build 54 100 139);
    ("TAN", RGBColor.Build 210 180 140);
    ("TAN1", RGBColor.Build 255 165 79);
    ("TAN2", RGBColor.Build 238 154 73);
    ("TAN3", RGBColor.Build 205 133 63);
    ("TAN4", RGBColor.Build 139 90 43);
    ("TEAL", RGBColor.Build 0 128 128);
    ("THISTLE", RGBColor.Build 216 191 216);
    ("THISTLE1", RGBColor.Build 255 225 255);
    ("THISTLE2", RGBColor.Build 238 210 238);
    ("THISTLE3", RGBColor.Build 205 181 205);
    ("THISTLE4", RGBColor.Build 139 123 139);
    ("TOMATO1", RGBColor.Build 255 99 71);
    ("TOMATO2", RGBColor.Build 238 92 66);
    ("TOMATO3", RGBColor.Build 205 79 57);
    ("TOMATO4", RGBColor.Build 139 54 38);
    ("TURQUOISE", RGBColor.Build 64 224 208);
    ("TURQUOISE1", RGBColor.Build 0 245 255);
    ("TURQUOISE2", RGBColor.Build 0 229 238);
    ("TURQUOISE3", RGBColor.Build 0 197 205);
    ("TURQUOISE4", RGBColor.Build 0 134 139);
    ("TURQUOISEBLUE", RGBColor.Build 0 199 140);
    ("VIOLET", RGBColor.Build 238 130 238);
    ("VIOLETRED", RGBColor.Build 208 32 144);
    ("VIOLETRED1", RGBColor.Build 255 62 150);
    ("VIOLETRED2", RGBColor.Build 238 58 140);
    ("VIOLETRED3", RGBColor.Build 205 50 120);
    ("VIOLETRED4", RGBColor.Build 139 34 82);
    ("WARMGREY", RGBColor.Build 128 128 105);
    ("WHEAT", RGBColor.Build 245 222 179);
    ("WHEAT1", RGBColor.Build 255 231 186);
    ("WHEAT2", RGBColor.Build 238 216 174);
    ("WHEAT3", RGBColor.Build 205 186 150);
    ("WHEAT4", RGBColor.Build 139 126 102);
    ("WHITE", RGBColor.Build 255 255 255);
    ("WHITESMOKE", RGBColor.Build 245 245 245);
    ("YELLOW1", RGBColor.Build 255 255 0);
    ("YELLOW2", RGBColor.Build 238 238 0);
    ("YELLOW3", RGBColor.Build 205 205 0);
    ("YELLOW4", RGBColor.Build 139 139 0)
  ].

(** What a lookup on the class can return: a colour of the class body, a
    text, the annotations of the class body (a [dict] that binds each of
    [names], in this order, to the class [RGBColor]), or a value that
    comes from outside [rgb.py]. *)
Inductive value (Inherited : Type) : Type :=
  | Colour (c : RGBColor.t)
  | Text (s : string)
  | Annotations (names : list string)
  | Foreign (v : Inherited).

Arguments Colour {Inherited} c.
Arguments Text {Inherited} s.
Arguments Annotations {Inherited} names.
Arguments Foreign {Inherited} v.

Section Lookup.

(** [__name__], the name the module was imported under. *)
Variable __name__ : string.

(** What the class inherits: the attributes of its base class [Enum] (of
    [nikocraft/utils/enum.py]), of [object] and of its metaclass, and what
    an interpreter gives a class of its own accord. None of it is written
    in [rgb.py]; [inherited name] is what is held there under [name], if
    anything. *)
Context {Inherited : Type}.
Variable inherited : string -> option Inherited.

(** What the class statement binds besides the colours: the name of the
    module, the qualified name of the class, the docstring and the
    annotations of the body, every colour name being annotated. *)
Definition statement_bindings : list (string * value Inherited) := [
    ("__module__", Text __name__);
    ("__qualname__", Text "RGB");
    ("__doc__", Text "RGB color library enum");
    ("__annotations__", Annotations (map fst members))
  ].

(** The namespace the class statement leaves: a later binding of a name
    replaces an earlier one. *)
Definition namespace : gmap string (value Inherited) :=
  foldl (fun ns kv => <[kv.1 := kv.2]> ns) ∅
    (statement_bindings ++ map (fun kv => (kv.1, Colour kv.2)) members).

(** [RGB.<name>], or [getattr(RGB, name)]: what the class statement bound
    under [name], else what the class inherits, else [AttributeError].
    The descriptors of [type] for [__module__], [__qualname__], [__doc__]
    and [__annotations__], which are asked first, hand out what the class
    statement bound. *)
Definition getattr (name : string) : result (value Inherited) :=
  match namespace !! name with
  | Some v => Ok v
  | None =>
      match inherited name with
      | Some v => Ok (Foreign v)
      | None => Raise AttributeError
      end
  end.

End Lookup.

End RGB.

End rgb.

(** ** nikocraft/window/scene.py *)

Module scene.

(** The window, its surface and the vector class live in modules that are
    not part of this development ([window.py], [vector2d.py], pygame):
    their types and the operations the scene calls are parameters. A scene
    holds a reference to its window; what the window is at a given moment
    is read from the store. *)
Section Scene.

Context {Surface Window Vec Value : Type}.
(** [surface.get_width()], [surface.get_height()]. *)
Variable get_width get_height : Surface -> Z.
(** [window.screen]. *)
Variable window_screen : Window -> Surface.
(** [Vec(x, y)]. *)
Variable Vec_new : Z -> Z -> Vec.

(** A reference to a window object, and the store that gives every
    reference its current object. *)
Definition ref : Set := nat.
Definition store : Type := ref -> Window.

(** The attributes [__init__] sets. [_screen] is a surface or [None]. *)
Record Scene : Type := Build {
  window : ref;
  args : gmap string Value;
  screen_cache : bool;
  _screen : option Surface
}.

(** [Scene(window, args)], [args] being [None] by default. *)
Definition __init__ (window : ref) (args : option (gmap string Value))
    : Scene :=
  {| window := window;
     args := match args with None => ∅ | Some a => a end;
     screen_cache := false;
     _screen := None |}.

(** The assignments [self.screen_cache = b] and [self._screen = s] a
    subclass makes. *)
Definition set_screen_cache (b : bool) (self : Scene) : Scene :=
  {| window := window self; args := args self;
     screen_cache := b; _screen := _screen self |}.

Definition set__screen (s : option Surface) (self : Scene) : Scene :=
  {| window := window self; args := args self;
     screen_cache := screen_cache self; _screen := s |}.

(** The properties. [screen] is [None] when the cache is on and no
    surface was stored. *)
Definition screen (σ : store) (self : Scene) : option Surface :=
  if screen_cache self then _screen self
  else Some (window_screen (σ (window self))).

Definition width (σ : store) (self : Scene) : Z :=
  get_width (window_screen (σ (window self))).

Definition height (σ : store) (self : Scene) : Z :=
  get_height (window_screen (σ (window self))).

Definition dimension (σ : store) (self : Scene) : Vec :=
  Vec_new (get_width (window_screen (σ (window self))))
          (get_height (window_screen (σ (window self)))).

(** The window behind a reference changes: the store after the change. *)
Definition rebind (r : ref) (w : Window) (σ : store) : store :=
  fun r' => if decide (r' = r) then w else σ r'.

(** The logger and the clock are reached through the window, and events
    come from pygame: more parameters. *)
Context {Logger Event : Type}.
(** [window.app.logger] and [window.clock.delta_time]. *)
Variable window_logger : Window -> Logger.
Variable window_delta_time : Window -> spec_float.

Definition logger (σ : store) (self : Scene) : Logger :=
  window_logger (σ (window self)).

Definition dt (σ : store) (self : Scene) : spec_float :=
  window_delta_time (σ (window self)).

(** The seven hooks: each body is [pass], so the scene after the call is
    the scene before it. *)
Definition init (self : Scene) : Scene := self.
Definition event (self : Scene) (e : Event) : Scene := self.
Definition render (self : Scene) : Scene := self.
Definition early_update (self : Scene) : Scene := self.
Definition update (self : Scene) : Scene := self.
Definition late_update (self : Scene) : Scene := self.
Definition quit (self : Scene) : Scene := self.

End Scene.

Arguments Scene : clear implicits.
Arguments store : clear implicits.

End scene.

(** * Specification

    The vocabulary the statements below are written in. *)

Import Py rgb scene.

(** A channel clipped to [0, 255]. *)
Definition clip (x : Z) : Z := Z.max 0 (Z.min 255 x).

(** Half of [k]; when [k] is odd, the even one of the two neighbours of
    [k / 2]. *)
Definition halve (k : Z) : Z :=
  let q := k / 2 in
  if Z.even k then q else if Z.even q then q else q + 1.

(** The check that [k * 0.5], rounded, is [halve k] and a channel value. *)
Definition halved_by_float (k : Z) : bool :=
  match mul k (PyFloat half) with
  | Ok x =>
      match round x with
      | Ok z => (z =? halve k) && (0 <=? z) && (z <=? 255)
      | Raise _ => false
      end
  | Raise _ => false
  end.

(** The lowercase hexadecimal digit of a value from 0 to 15. *)
Definition lower_hex_digit (d : Z) : ascii :=
  match d with
  | 0 => "0" | 1 => "1" | 2 => "2" | 3 => "3"
  | 4 => "4" | 5 => "5" | 6 => "6" | 7 => "7"
  | 8 => "8" | 9 => "9" | 10 => "a" | 11 => "b"
  | 12 => "c" | 13 => "d" | 14 => "e" | 15 => "f"
  | _ => "?"
  end%char.

(** Two lowercase hexadecimal digits, padded with a zero: the sixteens,
    then the units. *)
Definition two_hex (n : Z) : string :=
  String (lower_hex_digit (n / 16))
    (String (lower_hex_digit (n mod 16)) EmptyString).

(** A character that is neither [#] nor [x]. *)
Definition plain (c : ascii) : bool :=
  negb (Ascii.eqb c "#") && negb (Ascii.eqb c "x").

(** A text of such characters only. *)
Fixpoint all_plain (s : string) : bool :=
  match s with
  | EmptyString => true
  | String c t => plain c && all_plain t
  end.

(** The check that ['%02x' % n] is [two_hex n], a plain text that
    [int(_, 16)] reads back as [n]. *)
Definition byte_format_ok (n : Z) : bool :=
  String.eqb (format_02x n) (two_hex n)
  && all_plain (two_hex n)
  && match int16 (two_hex n) with Ok v => v =? n | Raise _ => false end.

(** The text [from_hex] parses: every [#] deleted, then every [0x]. *)
Definition cleaned (value : string) : string :=
  replace (replace value "#" "") "0x" "".

(** The three slices [from_hex] hands to [int]. *)
Definition group (value : string) (k : nat) : string :=
  slice (cleaned value) (2 * k) (2 * k + 2).

(** [p in s]. *)
Fixpoint occurs (p s : string) : bool :=
  match s with
  | EmptyString => startswith s p
  | String _ t => startswith s p || occurs p t
  end.

(** A hexadecimal digit, either case. *)
Definition hex_char (c : ascii) : bool := digit_value c <? 16.

(** A text of exactly two hexadecimal digits. *)
Definition two_hex_chars (s : string) : bool :=
  match s with
  | String a (String b EmptyString) => hex_char a && hex_char b
  | _ => false
  end.

(** The check that two hexadecimal digits are read as their value. *)
Definition two_digits_parse (a b : ascii) : bool :=
  implb (hex_char a && hex_char b)
    match int16 (String a (String b EmptyString)) with
    | Ok v => v =? 16 * digit_value a + digit_value b
    | Raise _ => false
    end.

(** [cleaned], repeated as often as the text is long: nothing is left to
    delete. *)
Definition deleted_fully (s : string) : string :=
  Nat.iter (String.length s) cleaned s.

(** The divisor is zero: the int [0], or the float [0.0] or [-0.0]. *)
Definition is_zero (d : number) : bool :=
  match d with
  | PyInt z => z =? 0
  | PyFloat f => fzero f
  end.

(** The int can be converted to a float. *)
Definition fits_float (z : Z) : bool := is_ok (float_of_int z).

(** The number is an int or a finite float. *)
Definition finite_number (q : number) : bool :=
  match q with
  | PyInt _ => true
  | PyFloat f => ffinite f
  end.

(** A colour with every channel in [0, 255]. *)
Definition in_range (c : RGBColor.t) : Prop :=
  0 <= RGBColor.red c <= 255 /\ 0 <= RGBColor.green c <= 255
  /\ 0 <= RGBColor.blue c <= 255.

(** A colour built channel by channel from one or two others. *)
Definition map_channels (f : Z -> Z) (a : RGBColor.t) : RGBColor.t :=
  RGBColor.Build (f (RGBColor.red a)) (f (RGBColor.green a))
    (f (RGBColor.blue a)).

Definition zip_channels (f : Z -> Z -> Z) (a b : RGBColor.t) : RGBColor.t :=
  RGBColor.Build (f (RGBColor.red a) (RGBColor.red b))
    (f (RGBColor.green a) (RGBColor.green b))
    (f (RGBColor.blue a) (RGBColor.blue b)).

(** The integer nearest to [n / d] for [d > 0], a tie going to the even
    neighbour. *)
Definition div_nearest_even (n d : Z) : Z :=
  let q := n / d in
  match 2 * (n mod d) ?= d with
  | Lt => q
  | Gt => q + 1
  | Eq => if Z.even q then q else q + 1
  end.

(** The check that [n / d], rounded, is [div_nearest_even n d]. *)
Definition truediv_rounds_ok (n d : Z) : bool :=
  match truediv n (PyInt d) with
  | Ok q =>
      match round q with
      | Ok z => z =? div_nearest_even n d
      | Raise _ => false
      end
  | Raise _ => false
  end.

(** The value two hexadecimal digits spell. *)
Definition hex_pair_value (a b : ascii) : Z :=
  16 * digit_value a + digit_value b.

(** A hexadecimal digit in lowercase. *)
Definition lower_hex (a : ascii) : ascii := lower_hex_digit (digit_value a).

(** The check that a text of at most two characters, if [int(_, 16)]
    accepts it, has a value from -15 to 255. *)
Definition short_parse_bounded (s : string) : bool :=
  match int16 s with
  | Ok v => (-15 <=? v) && (v <=? 255)
  | Raise _ => true
  end.

(** The check that ['%02x' % n] has two plain characters that
    [int(_, 16)] reads back as [n]. *)
Definition format_reads_back (n : Z) : bool :=
  (String.length (format_02x n) =? 2)%nat
  && all_plain (format_02x n)
  && match int16 (format_02x n) with Ok v => v =? n | Raise _ => false end.

(** A channel can be written: no limit is set, or [z] has no more digits
    than the limit. *)
Definition within (limit z : Z) : bool :=
  negb ((0 <? limit) && (limit <? digits z)).

(** Every channel of [c] can be written under [limit]. *)
Definition printable (limit : Z) (c : RGBColor.t) : bool :=
  within limit (RGBColor.red c) && within limit (RGBColor.green c)
  && within limit (RGBColor.blue c).

(** The channels in decimal, between parentheses, a comma and a blank
    between them. *)
Definition text (c : RGBColor.t) : string :=
  "(" +:+ decimal (RGBColor.red c) +:+ ", " +:+ decimal (RGBColor.green c)
  +:+ ", " +:+ decimal (RGBColor.blue c) +:+ ")".

(** The character [c] does not occur in [s]. *)
Fixpoint no_char (c : ascii) (s : string) : bool :=
  match s with
  | EmptyString => true
  | String a t => negb (Ascii.eqb a c) && no_char c t
  end.

(** * Properties *)

(** One step of the error monad: the bind of a known outcome. *)
Ltac simpl_bind := cbn [Py.result_bind mbind fmap Py.result_fmap].

Tactic Notation "simpl_bind" "in" hyp(H) :=
  cbn [Py.result_bind mbind fmap Py.result_fmap] in H.

Section clamp_props.

Lemma clip_range x : 0 <= clip x <= 255.
Proof. unfold clip; lia. Qed.

Lemma clip_id x : 0 <= x <= 255 -> clip x = x.
Proof. unfold clip; lia. Qed.

Lemma clip_idem x : clip (clip x) = clip x.
Proof. unfold clip; lia. Qed.

Lemma new_ints r g b :
  RGBColor.__new__ (PyInt r) (PyInt g) (PyInt b) = Ok (RGBColor.Build r g b).
Proof. reflexivity. Qed.

Lemma clamp_body_spec (l : list Z) (i : nat) (x : Z) :
  l !! i = Some x -> RGBColor.clamp_body l i = Ok (<[i := clip x]> l).
Proof.
  intros Hx. unfold RGBColor.clamp_body, getitem, setitem. rewrite Hx. cbn.
  pose proof (lookup_lt_Some _ _ _ Hx) as Hlt.
  destruct (Z.ltb_spec x 0).
  - replace (clip x) with 0 by (unfold clip; lia).
    rewrite decide_True by exact Hlt. reflexivity.
  - destruct (Z.ltb_spec 255 x).
    + replace (clip x) with 255 by (unfold clip; lia).
      rewrite decide_True by exact Hlt. reflexivity.
    + replace (clip x) with x by (unfold clip; lia).
      rewrite list_insert_id by exact Hx. reflexivity.
Qed.

Lemma clamp_eq c :
  RGBColor.clamp c =
  Ok (RGBColor.Build (clip (RGBColor.red c)) (clip (RGBColor.green c))
        (clip (RGBColor.blue c))).
Proof.
  destruct c as [r g b]. unfold RGBColor.clamp, range.
  cbn [seq for_each RGBColor.to_list
       RGBColor.red RGBColor.green RGBColor.blue].
  rewrite (clamp_body_spec _ 0 r) by reflexivity.
  cbn [mbind result_bind list_insert].
  rewrite (clamp_body_spec _ 1 g) by reflexivity.
  cbn [mbind result_bind list_insert].
  rewrite (clamp_body_spec _ 2 b) by reflexivity.
  cbn [mbind result_bind list_insert].
  reflexivity.
Qed.

(** C5. [clamp] returns a colour whose channels are those of [c], each
    clipped to [0, 255] on its own: below 0 becomes 0, above 255 becomes
    255, a value in range is kept. Clamping twice equals clamping once, and
    [RGBColor(300, -10, 128).clamp()] is [RGBColor(255, 0, 128)]. *)
Theorem clamp_clips_each_channel (c : RGBColor.t) :
  RGBColor.clamp c =
    Ok (RGBColor.Build (clip (RGBColor.red c)) (clip (RGBColor.green c))
          (clip (RGBColor.blue c)))
  /\ (forall x : Z,
        (x < 0 -> clip x = 0) /\ (255 < x -> clip x = 255)
        /\ (0 <= x <= 255 -> clip x = x))
  /\ (exists c1 c2,
        RGBColor.clamp c = Ok c1 /\ RGBColor.clamp c1 = Ok c2
        /\ RGBColor.__eq__ c2 c1 = true)
  /\ RGBColor.clamp (RGBColor.Build 300 (-10) 128) =
       Ok (RGBColor.Build 255 0 128).
Proof.
  split; [apply clamp_eq |].
  split; [intros x; unfold clip; lia |].
  split; [| reflexivity].
  eexists; eexists. split; [apply clamp_eq |]. split; [apply clamp_eq |].
  cbn [RGBColor.red RGBColor.green RGBColor.blue].
  rewrite !clip_idem. unfold RGBColor.__eq__. cbn.
  rewrite !Z.eqb_refl. reflexivity.
Qed.

Lemma add_eq (a b : RGBColor.t) :
  RGBColor.__add__ a b =
  Ok (RGBColor.Build (clip (RGBColor.red a + RGBColor.red b))
        (clip (RGBColor.green a + RGBColor.green b))
        (clip (RGBColor.blue a + RGBColor.blue b))).
Proof.
  unfold RGBColor.__add__. rewrite new_ints. simpl_bind.
  apply clamp_eq.
Qed.

Lemma sub_eq (a b : RGBColor.t) :
  RGBColor.__sub__ a b =
  Ok (RGBColor.Build (clip (RGBColor.red a - RGBColor.red b))
        (clip (RGBColor.green a - RGBColor.green b))
        (clip (RGBColor.blue a - RGBColor.blue b))).
Proof.
  unfold RGBColor.__sub__. rewrite new_ints. simpl_bind.
  apply clamp_eq.
Qed.

(** C4. Every channel of [a + b] is the clipped sum of the two channels,
    every channel of [a - b] the clipped difference. *)
Theorem add_sub_clamp_channelwise (a b : RGBColor.t) :
  RGBColor.__add__ a b =
    Ok (RGBColor.Build (clip (RGBColor.red a + RGBColor.red b))
          (clip (RGBColor.green a + RGBColor.green b))
          (clip (RGBColor.blue a + RGBColor.blue b)))
  /\ RGBColor.__sub__ a b =
    Ok (RGBColor.Build (clip (RGBColor.red a - RGBColor.red b))
          (clip (RGBColor.green a - RGBColor.green b))
          (clip (RGBColor.blue a - RGBColor.blue b))).
Proof. split; [apply add_eq | apply sub_eq]. Qed.

End clamp_props.

Section mix_props.

(** A property checked on every integer from 0 to 255 holds on them. *)
Lemma byte_forall (P : Z -> bool) :
  forallb P (map Z.of_nat (seq 0 256)) = true ->
  forall n, 0 <= n <= 255 -> P n = true.
Proof.
  intros H n Hn. rewrite forallb_forall in H. apply H.
  apply in_map_iff. exists (Z.to_nat n). split; [lia |].
  apply in_seq. lia.
Qed.

Lemma mul_half k :
  0 <= k <= 255 ->
  exists x, mul k (PyFloat half) = Ok x /\ round x = Ok (halve k)
            /\ 0 <= halve k <= 255.
Proof.
  intros Hk.
  assert (H : halved_by_float k = true).
  { revert k Hk. apply byte_forall. vm_compute. reflexivity. }
  unfold halved_by_float in H.
  destruct (mul k (PyFloat half)) as [x |]; [| discriminate].
  destruct (round x) as [z |] eqn:E; [| discriminate].
  exists x. split; [reflexivity |].
  apply andb_prop in H as [H H2]. apply andb_prop in H as [H0 H1].
  apply Z.eqb_eq in H0. subst z. split; [exact E | lia].
Qed.

(** What [mix] computes: the sum is clipped before it is halved. *)
Lemma mix_eq (a b : RGBColor.t) :
  RGBColor.mix a b =
  Ok (RGBColor.Build (halve (clip (RGBColor.red a + RGBColor.red b)))
        (halve (clip (RGBColor.green a + RGBColor.green b)))
        (halve (clip (RGBColor.blue a + RGBColor.blue b)))).
Proof.
  unfold RGBColor.mix.
  rewrite add_eq.
  simpl_bind. unfold RGBColor.__mul__.
  cbn [RGBColor.red RGBColor.green RGBColor.blue].
  destruct (mul_half _ (clip_range (RGBColor.red a + RGBColor.red b)))
    as (x & -> & Hx & Bx).
  destruct (mul_half _ (clip_range (RGBColor.green a + RGBColor.green b)))
    as (y & -> & Hy & By).
  destruct (mul_half _ (clip_range (RGBColor.blue a + RGBColor.blue b)))
    as (z & -> & Hz & Bz).
  simpl_bind. unfold RGBColor.__new__.
  rewrite Hx, Hy, Hz. simpl_bind.
  rewrite !clamp_eq. simpl_bind.
  rewrite clamp_eq. cbn [RGBColor.red RGBColor.green RGBColor.blue].
  rewrite !clip_idem, (clip_id _ Bx), (clip_id _ By), (clip_id _ Bz).
  reflexivity.
Qed.

(** When no sum leaves [0, 255], [mix] is the average, a half rounded to
    the even neighbour. *)
Lemma mix_average_in_range (a b : RGBColor.t) :
  0 <= RGBColor.red a + RGBColor.red b <= 255 ->
  0 <= RGBColor.green a + RGBColor.green b <= 255 ->
  0 <= RGBColor.blue a + RGBColor.blue b <= 255 ->
  RGBColor.mix a b =
  Ok (RGBColor.Build (halve (RGBColor.red a + RGBColor.red b))
        (halve (RGBColor.green a + RGBColor.green b))
        (halve (RGBColor.blue a + RGBColor.blue b))).
Proof.
  intros Hr Hg Hb.
  rewrite mix_eq, (clip_id _ Hr), (clip_id _ Hg), (clip_id _ Hb).
  reflexivity.
Qed.

(** C1. [mix] of white with white: the sum 510 of each channel is clipped
    to 255 by [+], and half of 255 rounds to 128. The result is the grey
    [RGBColor(128, 128, 128)], not white. *)
Theorem mix_white_white :
  RGBColor.mix (RGBColor.Build 255 255 255) (RGBColor.Build 255 255 255) =
  Ok (RGBColor.Build 128 128 128).
Proof. vm_compute. reflexivity. Qed.

End mix_props.

Section hex_props.

Lemma all_plain_app s t :
  all_plain (s +:+ t) = all_plain s && all_plain t.
Proof.
  induction s as [| c s IH]; simpl; [reflexivity |].
  rewrite IH. apply andb_assoc.
Qed.

Lemma replace_hash_plain s :
  all_plain s = true -> replace_from "#" "" 0 s = s.
Proof.
  induction s as [| c s IH]; [reflexivity |].
  cbn [all_plain replace_from startswith]. intros H.
  apply andb_prop in H as [Hc Hs].
  unfold plain in Hc. apply andb_prop in Hc as [Hc _].
  rewrite Ascii.eqb_sym. destruct (Ascii.eqb c "#"); [discriminate |].
  cbn [andb]. rewrite IH by exact Hs. reflexivity.
Qed.

Lemma replace_0x_plain s :
  all_plain s = true -> replace_from "0x" "" 0 s = s.
Proof.
  induction s as [| c s IH]; [reflexivity |].
  cbn [all_plain replace_from startswith]. intros H.
  apply andb_prop in H as [Hc Hs].
  rewrite IH by exact Hs.
  destruct (Ascii.eqb "0" c); [| reflexivity].
  destruct s as [| c' s']; [reflexivity |].
  cbn [all_plain] in Hs. apply andb_prop in Hs as [Hc' _].
  unfold plain in Hc'. apply andb_prop in Hc' as [_ Hx].
  cbn [andb startswith]. rewrite Ascii.eqb_sym.
  destruct (Ascii.eqb c' "x"); [discriminate |]. reflexivity.
Qed.

Lemma byte_format n :
  0 <= n <= 255 ->
  format_02x n = two_hex n /\ all_plain (two_hex n) = true
  /\ int16 (two_hex n) = Ok n.
Proof.
  intros Hn.
  assert (H : byte_format_ok n = true).
  { revert n Hn. apply byte_forall. vm_compute. reflexivity. }
  unfold byte_format_ok in H.
  apply andb_prop in H as [H H3]. apply andb_prop in H as [H1 H2].
  apply String.eqb_eq in H1.
  destruct (int16 (two_hex n)) as [v |]; [| discriminate].
  apply Z.eqb_eq in H3. subst v. auto.
Qed.

(** C3. For channels in [0, 255], [hex] is [#] followed by two lowercase
    hexadecimal digits for each channel, seven characters in all, and
    [from_hex] reads the colour back. *)
Theorem hex_format_round_trip (r g b : Z) :
  0 <= r <= 255 -> 0 <= g <= 255 -> 0 <= b <= 255 ->
  exists c,
    RGBColor.__new__ (PyInt r) (PyInt g) (PyInt b) = Ok c
    /\ RGBColor.hex c = String "#" (two_hex r +:+ two_hex g +:+ two_hex b)
    /\ String.length (RGBColor.hex c) = 7%nat
    /\ exists c',
         RGBColor.from_hex (RGBColor.hex c) = Ok c'
         /\ RGBColor.__eq__ c' c = true.
Proof.
  intros Hr Hg Hb. exists (RGBColor.Build r g b).
  split; [reflexivity |].
  destruct (byte_format r Hr) as (Fr & Pr & Ir).
  destruct (byte_format g Hg) as (Fg & Pg & Ig).
  destruct (byte_format b Hb) as (Fb & Pb & Ib).
  assert (Hhex : RGBColor.hex (RGBColor.Build r g b) =
                 String "#" (two_hex r +:+ two_hex g +:+ two_hex b)).
  { unfold RGBColor.hex. cbn [RGBColor.red RGBColor.green RGBColor.blue].
    rewrite Fr, Fg, Fb. reflexivity. }
  split; [exact Hhex |]. rewrite Hhex. split; [reflexivity |].
  exists (RGBColor.Build r g b). split.
  - unfold RGBColor.from_hex, replace.
    assert (Hp : all_plain (two_hex r +:+ two_hex g +:+ two_hex b) = true).
    { rewrite !all_plain_app, Pr, Pg, Pb. reflexivity. }
    change (replace_from "#" "" 0
              (String "#" (two_hex r +:+ two_hex g +:+ two_hex b)))
      with (replace_from "#" "" 0 (two_hex r +:+ two_hex g +:+ two_hex b)).
    rewrite (replace_hash_plain _ Hp), (replace_0x_plain _ Hp).
    change (slice (two_hex r +:+ two_hex g +:+ two_hex b) 0 2)
      with (two_hex r).
    change (slice (two_hex r +:+ two_hex g +:+ two_hex b) 2 4)
      with (two_hex g).
    change (slice (two_hex r +:+ two_hex g +:+ two_hex b) 4 6)
      with (two_hex b).
    rewrite Ir, Ig, Ib. reflexivity.
  - unfold RGBColor.__eq__. cbn. rewrite !Z.eqb_refl. reflexivity.
Qed.

Lemma hex_format_round_trip_witness :
  (0 <= 255 <= 255 /\ 0 <= 48 <= 255 /\ 0 <= 0 <= 255)
  /\ exists c,
       RGBColor.__new__ (PyInt 255) (PyInt 48) (PyInt 0) = Ok c
       /\ RGBColor.hex c = "#ff3000"
       /\ String.length (RGBColor.hex c) = 7%nat
       /\ exists c',
            RGBColor.from_hex (RGBColor.hex c) = Ok c'
            /\ RGBColor.__eq__ c' c = true.
Proof.
  split; [lia |]. apply (hex_format_round_trip 255 48 0); lia.
Defined.

End hex_props.

Section from_hex_props.

Lemma from_hex_groups value :
  RGBColor.from_hex value =
  (r ← int16 (group value 0);
   g ← int16 (group value 1);
   b ← int16 (group value 2);
   Ok (RGBColor.Build r g b)).
Proof. reflexivity. Qed.

Lemma int16_error s e : int16 s = Raise e -> e = ValueError.
Proof.
  unfold int16. destruct (skip_sign (lstrip s)) as [neg s1].
  destruct (startswith (skip_prefix16 s1) "_"); [congruence |].
  destruct (scan_digits 16 false 0 0 (skip_prefix16 s1))
    as [[[v [| n]] rest] |]; try congruence.
  destruct (all_space rest); congruence.
Qed.

Lemma from_hex_error value e :
  RGBColor.from_hex value = Raise e -> e = ValueError.
Proof.
  rewrite from_hex_groups.
  destruct (int16 (group value 0)) eqn:E0; simpl_bind;
    [| intros [= ->]; eauto using int16_error].
  destruct (int16 (group value 1)) eqn:E1; simpl_bind;
    [| intros [= ->]; eauto using int16_error].
  destruct (int16 (group value 2)) eqn:E2; simpl_bind;
    [| intros [= ->]; eauto using int16_error].
  discriminate.
Qed.

Lemma substring_beyond s i n :
  (String.length s <= i)%nat -> String.substring i n s = EmptyString.
Proof.
  revert i. induction s as [| c s IH]; intros i Hi.
  - destruct i, n; reflexivity.
  - destruct i as [| i]; cbn in Hi; [lia |].
    cbn. apply IH. lia.
Qed.

Lemma group_short value k :
  (String.length (cleaned value) <= 2 * k)%nat -> group value k = EmptyString.
Proof. intros H. unfold group, slice. apply substring_beyond. exact H. Qed.

(** A property checked on the 256 characters holds on every character. *)
Lemma ascii_forall (P : ascii -> bool) :
  forallb P (map ascii_of_nat (seq 0 256)) = true -> forall c, P c = true.
Proof.
  intros H c. rewrite forallb_forall in H. apply H.
  apply in_map_iff. exists (nat_of_ascii c).
  split; [apply ascii_nat_embedding |].
  apply in_seq. pose proof (nat_ascii_bounded c). lia.
Qed.

Lemma two_digits_parse_all a b : two_digits_parse a b = true.
Proof.
  assert (H : forallb
                (fun a => forallb (two_digits_parse a)
                            (map ascii_of_nat (seq 0 256)))
                (map ascii_of_nat (seq 0 256)) = true)
    by (vm_compute; reflexivity).
  pose proof (ascii_forall _ H a) as Ha. cbv beta in Ha.
  exact (ascii_forall _ Ha b).
Qed.

Lemma int16_two_hex_chars a b :
  hex_char a = true -> hex_char b = true ->
  int16 (String a (String b EmptyString)) =
  Ok (16 * digit_value a + digit_value b).
Proof.
  intros Ha Hb. pose proof (two_digits_parse_all a b) as H.
  unfold two_digits_parse in H. rewrite Ha, Hb in H. cbn [andb implb] in H.
  destruct (int16 (String a (String b EmptyString))) as [v |];
    [| discriminate].
  apply Z.eqb_eq in H. congruence.
Qed.

Lemma int16_group_two_hex_chars s :
  two_hex_chars s = true -> exists v, int16 s = Ok v /\ 0 <= v <= 255.
Proof.
  destruct s as [| a [| b [| ? ?]]]; try discriminate.
  cbn [two_hex_chars]. intros H. apply andb_prop in H as [Ha Hb].
  rewrite (int16_two_hex_chars a b Ha Hb). eexists. split; [reflexivity |].
  unfold hex_char in Ha, Hb.
  assert (Da : 0 <= digit_value a).
  { unfold digit_value. repeat case_match; lia. }
  assert (Db : 0 <= digit_value b).
  { unfold digit_value. repeat case_match; lia. }
  lia.
Qed.

(** C2, as the code has it. [from_hex] raises [ValueError], and nothing
    else, exactly when [int(_, 16)] rejects one of the three slices
    [0:2], [2:4], [4:6] of the cleaned text; otherwise it returns the
    colour of the three values. A cleaned text of at most four characters
    is always rejected (its third slice is empty); three slices of two
    hexadecimal digits each are always accepted. *)
Theorem from_hex_fails_iff_a_group_is_rejected (value : string) :
  (RGBColor.from_hex value = Raise ValueError <->
     exists k, (k < 3)%nat /\ int16 (group value k) = Raise ValueError)
  /\ (forall e, RGBColor.from_hex value = Raise e -> e = ValueError)
  /\ (forall r g b,
        int16 (group value 0) = Ok r -> int16 (group value 1) = Ok g ->
        int16 (group value 2) = Ok b ->
        RGBColor.from_hex value = Ok (RGBColor.Build r g b))
  /\ ((String.length (cleaned value) <= 4)%nat ->
        RGBColor.from_hex value = Raise ValueError)
  /\ (two_hex_chars (group value 0) = true ->
      two_hex_chars (group value 1) = true ->
      two_hex_chars (group value 2) = true ->
      exists c, RGBColor.from_hex value = Ok c).
Proof.
  assert (Hiff : RGBColor.from_hex value = Raise ValueError <->
     exists k, (k < 3)%nat /\ int16 (group value k) = Raise ValueError).
  { rewrite from_hex_groups. split.
    - destruct (int16 (group value 0)) as [r |] eqn:E0;
        simpl_bind; [| intros H; exists 0%nat; split; [lia | congruence]].
      destruct (int16 (group value 1)) as [g |] eqn:E1;
        simpl_bind; [| intros H; exists 1%nat; split; [lia | congruence]].
      destruct (int16 (group value 2)) as [b |] eqn:E2;
        simpl_bind; [| intros H; exists 2%nat; split; [lia | congruence]].
      discriminate.
    - intros (k & Hk & E).
      destruct (int16 (group value 0)) as [r |] eqn:E0;
        simpl_bind;
        [| f_equal; eapply int16_error; exact E0].
      destruct (int16 (group value 1)) as [g |] eqn:E1;
        simpl_bind;
        [| f_equal; eapply int16_error; exact E1].
      destruct (int16 (group value 2)) as [b |] eqn:E2;
        simpl_bind;
        [| f_equal; eapply int16_error; exact E2].
      destruct k as [| [| [| k]]]; try lia; congruence. }
  split; [exact Hiff |].
  split; [apply from_hex_error |].
  split.
  { intros r g b E0 E1 E2. rewrite from_hex_groups, E0, E1, E2. reflexivity. }
  split.
  { intros Hlen. apply Hiff. exists 2%nat. split; [lia |].
    rewrite group_short by exact Hlen. reflexivity. }
  intros H0 H1 H2.
  destruct (int16_group_two_hex_chars _ H0) as (r & Er & _).
  destruct (int16_group_two_hex_chars _ H1) as (g & Eg & _).
  destruct (int16_group_two_hex_chars _ H2) as (b & Eb & _).
  exists (RGBColor.Build r g b).
  rewrite from_hex_groups, Er, Eg, Eb. reflexivity.
Qed.

(** C2, counterexample. The cleaned text ["12345"] has five characters,
    fewer than six, and [from_hex] accepts it: the last slice is the one
    character ["5"]. *)
Lemma from_hex_accepts_five_characters :
  (String.length (cleaned "12345") < 6)%nat
  /\ RGBColor.from_hex "12345" = Ok (RGBColor.Build 18 52 5).
Proof. split; [cbn; lia | reflexivity]. Qed.

End from_hex_props.

Section deletion_props.

Lemma replace_absent old new s :
  occurs old s = false -> replace_from old new 0 s = s.
Proof.
  induction s as [| c s IH]; [reflexivity |].
  cbn [occurs replace_from]. intros H.
  apply orb_false_elim in H as [-> Hs].
  rewrite IH by exact Hs. reflexivity.
Qed.

Lemma no_hash_after_replace s : occurs "#" (replace_from "#" "" 0 s) = false.
Proof.
  induction s as [| c s IH]; [reflexivity |].
  cbn [replace_from startswith String.length Nat.pred].
  destruct (Ascii.eqb "#" c) eqn:E; cbn [andb].
  - exact IH.
  - cbn [occurs startswith]. rewrite E, IH. reflexivity.
Qed.

Lemma no_hash_replace_0x s k :
  occurs "#" s = false -> occurs "#" (replace_from "0x" "" k s) = false.
Proof.
  revert k. induction s as [| c s IH]; intros k; [intros _; reflexivity |].
  cbn [occurs startswith]. intros H.
  apply orb_false_elim in H as [Hc Hs].
  cbn [replace_from]. destruct k as [| k]; [| apply IH; exact Hs].
  destruct (startswith (String c s) "0x").
  - apply IH. exact Hs.
  - cbn [occurs startswith]. rewrite Hc. cbn [orb]. apply IH. exact Hs.
Qed.

Lemma cleaned_no_hash s : occurs "#" (cleaned s) = false.
Proof. apply no_hash_replace_0x, no_hash_after_replace. Qed.

Lemma cleaned_fixed s :
  occurs "0x" (cleaned s) = false -> cleaned (cleaned s) = cleaned s.
Proof.
  intros H. unfold cleaned at 1. unfold replace.
  rewrite (replace_absent "#" "" _ (cleaned_no_hash s)).
  apply replace_absent. exact H.
Qed.

(** C9, as the code has it. [from_hex] deletes every [#] and then, in one
    pass from left to right, every [0x], wherever they stand. Whenever the
    text this leaves contains no [0x], [from_hex s] is [from_hex] of that
    text; so it is for ["ff00#00"] and ["ff0x0000"], both read as
    ["ff0000"]. *)
Theorem from_hex_deletes_anywhere (s : string) :
  occurs "0x" (cleaned s) = false ->
  RGBColor.from_hex s = RGBColor.from_hex (cleaned s)
  /\ occurs "#" (cleaned s) = false
  /\ RGBColor.from_hex "ff00#00" = RGBColor.from_hex "ff0000"
  /\ RGBColor.from_hex "ff0x0000" = RGBColor.from_hex "ff0000"
  /\ RGBColor.from_hex "ff0000" = Ok (RGBColor.Build 255 0 0).
Proof.
  intros H. split; [| split; [apply cleaned_no_hash | repeat split]].
  rewrite !from_hex_groups. unfold group.
  rewrite (cleaned_fixed s H). reflexivity.
Qed.

Lemma from_hex_deletes_anywhere_witness :
  occurs "0x" (cleaned "#0x1a#2b0x3c") = false
  /\ RGBColor.from_hex "#0x1a#2b0x3c" = RGBColor.from_hex "1a2b3c".
Proof.
  split; [reflexivity |].
  apply (from_hex_deletes_anywhere "#0x1a#2b0x3c"). reflexivity.
Defined.

(** C9, counterexample. In ["00xx112233"] the one pass deletes the inner
    [0x] and leaves ["0x112233"], whose first slice ["0x"] is rejected;
    the text with the deletion made, and the text with every [0x] gone,
    are both accepted. *)
Lemma from_hex_deletion_is_one_pass :
  cleaned "00xx112233" = "0x112233"
  /\ deleted_fully "00xx112233" = "112233"
  /\ RGBColor.from_hex "00xx112233" = Raise ValueError
  /\ RGBColor.from_hex (cleaned "00xx112233") = Ok (RGBColor.Build 17 34 51)
  /\ RGBColor.from_hex (deleted_fully "00xx112233") =
       Ok (RGBColor.Build 17 34 51)
  /\ ~ (forall s, RGBColor.from_hex s = RGBColor.from_hex (cleaned s))
  /\ ~ (forall s, RGBColor.from_hex s = RGBColor.from_hex (deleted_fully s)).
Proof.
  repeat split; try reflexivity.
  - intros H. specialize (H "00xx112233"). discriminate H.
  - intros H. specialize (H "00xx112233"). discriminate H.
Qed.

End deletion_props.

Section float_bounds.

Lemma digits2_pos_size p : digits2_pos p = Pos.size p.
Proof. induction p as [p IH | p IH |]; cbn; congruence. Qed.

Lemma Zdigits2_log2 m : 0 < m -> Zdigits2 m = Z.log2 m + 1.
Proof.
  destruct m as [| p | p]; try lia. intros _. cbn [Zdigits2].
  rewrite digits2_pos_size. destruct p; cbn; lia.
Qed.

Lemma Zdigits2_nonneg m : 0 <= Zdigits2 m.
Proof. destruct m; cbn; lia. Qed.

(** [m < 2^k] bounds the number of digits by [k]. *)
Lemma Zdigits2_le m k : 0 <= m < 2 ^ k -> 0 <= k -> Zdigits2 m <= k.
Proof.
  intros [H0 Hk] K. destruct (Z.eq_dec m 0) as [-> | Hm]; [cbn; lia |].
  rewrite Zdigits2_log2 by lia.
  apply Z.log2_lt_pow2 in Hk; lia.
Qed.

(** A positive number is at least [2^(digits - 1)]. *)
Lemma Zdigits2_lower m : 0 < m -> 2 ^ (Zdigits2 m - 1) <= m.
Proof.
  intros Hm. rewrite Zdigits2_log2 by lia.
  replace (Z.log2 m + 1 - 1) with (Z.log2 m) by lia.
  apply Z.log2_spec. lia.
Qed.

Lemma Zdigits2_upper m : 0 < m -> m < 2 ^ Zdigits2 m.
Proof.
  intros Hm. rewrite Zdigits2_log2 by lia.
  apply Z.log2_spec. lia.
Qed.

Lemma iter_pos_invariant {A : Type} (P : A -> Prop) (f : A -> A) :
  (forall x, P x -> P (f x)) -> forall p x, P x -> P (SpecFloat.iter_pos f p x).
Proof.
  intros Hf. induction p as [p IH | p IH |]; intros x Hx; cbn; auto.
Qed.

Lemma shr_1_bounds M mrs :
  0 <= shr_m mrs <= M -> 0 <= shr_m (shr_1 mrs) <= M.
Proof.
  destruct mrs as [m r s]. cbn [shr_m]. intros H.
  destruct m as [| [p | p |] | p]; cbn; lia.
Qed.

Lemma shr_fexp_bounds m e l :
  0 <= m ->
  0 <= shr_m (fst (shr_fexp prec emax m e l)) <= m
  /\ snd (shr_fexp prec emax m e l)
     = Z.max e (fexp prec emax (Zdigits2 m + e)).
Proof.
  intros Hm. unfold shr_fexp, shr.
  assert (H0 : 0 <= shr_m (shr_record_of_loc m l) <= m)
    by (destruct l as [| []]; cbn; lia).
  destruct (fexp prec emax (Zdigits2 m + e) - e) as [| p | p] eqn:E;
    cbn [fst snd]; [split; [exact H0 | lia] | | split; [exact H0 | lia]].
  split; [| lia].
  apply (iter_pos_invariant (fun x => 0 <= shr_m x <= m)); [| exact H0].
  intros x. apply shr_1_bounds.
Qed.

Lemma round_nearest_even_bounds m l :
  m <= round_nearest_even m l <= m + 1.
Proof.
  destruct l as [| []]; cbn [round_nearest_even]; try lia.
  destruct (Z.even m); lia.
Qed.

Lemma fexp_le t : fexp prec emax t <= Z.max (t - 53) (-1074).
Proof. unfold fexp, emin, prec, emax. lia. Qed.

(** Rounding a mantissa of at most 64 digits at an exponent that is not
    positive gives a finite float. *)
Lemma binary_round_aux_finite sx mx ex lx :
  0 <= mx < 2 ^ 64 -> ex <= 0 ->
  ffinite (binary_round_aux prec emax sx mx ex lx) = true.
Proof.
  intros Hm He. unfold binary_round_aux.
  pose proof (shr_fexp_bounds mx ex lx (proj1 Hm)) as [B1 E1].
  destruct (shr_fexp prec emax mx ex lx) as [mrs' e'].
  cbn [fst snd] in B1, E1.
  pose proof (round_nearest_even_bounds (shr_m mrs') (loc_of_shr_record mrs'))
    as R.
  set (m1 := round_nearest_even (shr_m mrs') (loc_of_shr_record mrs')) in *.
  assert (H1 : 0 <= m1) by lia.
  pose proof (shr_fexp_bounds m1 e' loc_Exact H1) as [B2 E2].
  destruct (shr_fexp prec emax m1 e' loc_Exact) as [mrs'' e''].
  cbn [fst snd] in B2, E2.
  assert (D0 : Zdigits2 mx <= 64) by (apply Zdigits2_le; lia).
  assert (D1 : Zdigits2 m1 <= 65).
  { apply Zdigits2_le; [| lia]. split; [lia |].
    change (2 ^ 65) with (2 * 2 ^ 64). lia. }
  pose proof (Zdigits2_nonneg mx). pose proof (Zdigits2_nonneg m1).
  pose proof (fexp_le (Zdigits2 mx + ex)).
  pose proof (fexp_le (Zdigits2 m1 + e')).
  destruct (shr_m mrs'') as [| p | p]; [reflexivity | | lia].
  replace (e'' <=? emax - prec) with true; [reflexivity |].
  symmetry. apply Z.leb_le. unfold emax, prec. lia.
Qed.

(** The quotient mantissa of two ints, the first below [2^64]: at most 64
    digits, at an exponent that is not positive. *)
Lemma SFdiv_core_bounds a b :
  0 < a < 2 ^ 64 -> 0 < b ->
  0 <= (SFdiv_core_binary prec emax a 0 b 0).1.1 < 2 ^ 64
  /\ (SFdiv_core_binary prec emax a 0 b 0).1.2 <= 0.
Proof.
  intros Ha Hb. unfold SFdiv_core_binary.
  set (d1 := Zdigits2 a). set (d2 := Zdigits2 b).
  set (e' := Z.min (fexp prec emax (d1 + 0 - (d2 + 0))) (0 - 0)).
  set (s := 0 - 0 - e').
  assert (He : e' <= 0) by (unfold e'; lia).
  assert (Hs : 0 <= s) by (unfold s; lia).
  set (m' := match s with
             | 0 => a
             | Z.pos _ => Z.shiftl a s
             | Z.neg _ => 0
             end).
  assert (Hm : m' = a * 2 ^ s).
  { unfold m'. destruct s as [| p | p] eqn:Es.
    - cbn. lia.
    - apply Z.shiftl_mul_pow2. lia.
    - lia. }
  pose proof (Z.div_eucl_eq m' b ltac:(lia)) as Hdiv.
  pose proof (Z.mod_pos_bound m' b ltac:(lia)) as Hmod.
  unfold Z.modulo in Hmod.
  destruct (Z.div_eucl m' b) as [q r]. cbn [fst snd].
  split; [| exact He].
  assert (D1 : 1 <= d1 <= 64).
  { unfold d1. split.
    - rewrite Zdigits2_log2 by lia. pose proof (Z.log2_nonneg a). lia.
    - apply Zdigits2_le; lia. }
  assert (D2 : 1 <= d2).
  { unfold d2. rewrite Zdigits2_log2 by lia.
    pose proof (Z.log2_nonneg b). lia. }
  assert (Lb : 2 ^ (d2 - 1) <= b) by (apply Zdigits2_lower; lia).
  assert (Ua : a < 2 ^ d1) by (apply Zdigits2_upper; lia).
  assert (P2 : 0 < 2 ^ s) by (apply Z.pow_pos_nonneg; lia).
  assert (Q0 : 0 <= q) by nia.
  split; [exact Q0 |].
  set (K := Z.max 0 (d1 - d2 + 1 + s)).
  assert (HK : K <= 64).
  { unfold K, s, e', fexp, emin, prec, emax. lia. }
  assert (Hq : q < 2 ^ K).
  { assert (Hpow : a * 2 ^ s < 2 ^ (d2 - 1) * 2 ^ K).
    { rewrite <- Z.pow_add_r by (unfold K; lia).
      apply Z.lt_le_trans with (2 ^ d1 * 2 ^ s); [nia |].
      rewrite <- Z.pow_add_r by lia.
      apply Z.pow_le_mono_r; [lia |]. unfold K. lia. }
    assert (PK : 0 < 2 ^ K) by (apply Z.pow_pos_nonneg; unfold K; lia).
    assert (Pd : 0 < 2 ^ (d2 - 1)) by (apply Z.pow_pos_nonneg; lia).
    nia. }
  apply Z.lt_le_trans with (2 ^ K); [exact Hq |].
  apply Z.pow_le_mono_r; lia.
Qed.

(** [a / b] for an int [a] below [2^64] in absolute value and an int [b]
    that is not zero is a finite float. *)
Lemma int_true_divide_finite x z :
  Z.abs x < 2 ^ 64 -> z <> 0 ->
  exists f, int_true_divide x z = Ok f /\ ffinite f = true.
Proof.
  intros Hx Hz. unfold int_true_divide.
  apply Z.eqb_neq in Hz as Hz'. rewrite Hz'.
  assert (F : ffinite (SFdiv prec emax (exact_of_int x) (exact_of_int z))
              = true).
  { destruct x as [| a | a], z as [| b | b]; try congruence;
      try reflexivity; cbn [exact_of_int SFdiv];
      pose proof (SFdiv_core_bounds (Zpos a) (Zpos b) ltac:(lia) ltac:(lia))
        as [B1 B2];
      destruct (SFdiv_core_binary prec emax (Zpos a) 0 (Zpos b) 0)
        as [[mz ez] lz]; cbn [fst snd] in B1, B2;
      apply binary_round_aux_finite; assumption. }
  destruct (SFdiv prec emax (exact_of_int x) (exact_of_int z)) as [| | |];
    try discriminate; cbn [finf]; eauto.
Qed.

End float_bounds.

Section division_props.

Lemma fits_float_byte z : 0 <= z <= 255 -> fits_float z = true.
Proof. revert z. apply byte_forall. vm_compute. reflexivity. Qed.

Lemma round_finite q :
  finite_number q = true -> exists z, round q = Ok z.
Proof.
  destruct q as [z | [s | s | | s m e]]; cbn; try discriminate; eauto.
Qed.

Lemma round_not_zero_division q : round q <> Raise ZeroDivisionError.
Proof. destruct q as [z | [s | s | | s m e]]; cbn; discriminate. Qed.

Lemma truediv_zero x d :
  fits_float x = true -> is_zero d = true ->
  truediv x d = Raise ZeroDivisionError.
Proof.
  unfold fits_float, truediv, int_true_divide.
  destruct d as [z | f]; cbn [is_zero]; intros Hx Hd.
  - rewrite Hd. reflexivity.
  - destruct (float_of_int x); [| discriminate].
    simpl_bind. rewrite Hd. reflexivity.
Qed.

Lemma floordiv_zero x d :
  fits_float x = true -> is_zero d = true ->
  floordiv x d = Raise ZeroDivisionError.
Proof.
  unfold fits_float, floordiv.
  destruct d as [z | f]; cbn [is_zero]; intros Hx Hd.
  - rewrite Hd. reflexivity.
  - destruct (float_of_int x); [| discriminate].
    simpl_bind. rewrite Hd. reflexivity.
Qed.

Lemma truediv_nonzero x d :
  is_zero d = false -> truediv x d <> Raise ZeroDivisionError.
Proof.
  unfold truediv, int_true_divide, float_of_int.
  destruct d as [z | f]; cbn [is_zero]; intros Hd.
  - rewrite Hd.
    destruct (finf (SFdiv prec emax (exact_of_int x) (exact_of_int z)));
      cbn; discriminate.
  - destruct (finf (binary_normalize prec emax x 0 false));
      simpl_bind; [discriminate |].
    rewrite Hd. discriminate.
Qed.

Lemma floordiv_nonzero x d :
  is_zero d = false -> floordiv x d <> Raise ZeroDivisionError.
Proof.
  unfold floordiv, float_of_int.
  destruct d as [z | f]; cbn [is_zero]; intros Hd.
  - rewrite Hd. discriminate.
  - destruct (finf (binary_normalize prec emax x 0 false));
      simpl_bind; [discriminate |].
    rewrite Hd. discriminate.
Qed.

(** The constructor followed by [clamp], on three quotients. *)
Lemma new_clamp qr qg qb :
  (c ← RGBColor.__new__ qr qg qb; RGBColor.clamp c) =
  (r ← round qr; g ← round qg; b ← round qb;
   Ok (RGBColor.Build (clip r) (clip g) (clip b))).
Proof.
  unfold RGBColor.__new__.
  destruct (round qr) as [r |]; simpl_bind; [| reflexivity].
  destruct (round qg) as [g |]; simpl_bind; [| reflexivity].
  destruct (round qb) as [b |]; simpl_bind; [| reflexivity].
  apply clamp_eq.
Qed.

Lemma new_clamp_not_zero_division qr qg qb :
  (c ← RGBColor.__new__ qr qg qb; RGBColor.clamp c)
  <> Raise ZeroDivisionError.
Proof.
  rewrite new_clamp.
  pose proof (round_not_zero_division qr).
  pose proof (round_not_zero_division qg).
  pose proof (round_not_zero_division qb).
  destruct (round qr) as [r | e1]; simpl_bind; [| congruence].
  destruct (round qg) as [g | e2]; simpl_bind; [| congruence].
  destruct (round qb) as [b | e3]; simpl_bind; [| congruence].
  discriminate.
Qed.

Lemma truediv_zero_division_iff c d :
  fits_float (RGBColor.red c) = true ->
  RGBColor.__truediv__ c d = Raise ZeroDivisionError <-> is_zero d = true.
Proof.
  intros Hr. unfold RGBColor.__truediv__. split.
  - destruct (is_zero d) eqn:Hd; [reflexivity |]. intros H. exfalso.
    pose proof (truediv_nonzero (RGBColor.red c) d Hd).
    pose proof (truediv_nonzero (RGBColor.green c) d Hd).
    pose proof (truediv_nonzero (RGBColor.blue c) d Hd).
    destruct (truediv (RGBColor.red c) d); simpl_bind in H;
      [| congruence].
    destruct (truediv (RGBColor.green c) d); simpl_bind in H;
      [| congruence].
    destruct (truediv (RGBColor.blue c) d); simpl_bind in H;
      [| congruence].
    exact (new_clamp_not_zero_division _ _ _ H).
  - intros Hd. rewrite (truediv_zero _ _ Hr Hd). reflexivity.
Qed.

Lemma floordiv_zero_division_iff c d :
  fits_float (RGBColor.red c) = true ->
  RGBColor.__floordiv__ c d = Raise ZeroDivisionError <-> is_zero d = true.
Proof.
  intros Hr. unfold RGBColor.__floordiv__. split.
  - destruct (is_zero d) eqn:Hd; [reflexivity |]. intros H. exfalso.
    pose proof (floordiv_nonzero (RGBColor.red c) d Hd).
    pose proof (floordiv_nonzero (RGBColor.green c) d Hd).
    pose proof (floordiv_nonzero (RGBColor.blue c) d Hd).
    destruct (floordiv (RGBColor.red c) d); simpl_bind in H;
      [| congruence].
    destruct (floordiv (RGBColor.green c) d); simpl_bind in H;
      [| congruence].
    destruct (floordiv (RGBColor.blue c) d); simpl_bind in H;
      [| congruence].
    exact (new_clamp_not_zero_division _ _ _ H).
  - intros Hd. rewrite (floordiv_zero _ _ Hr Hd). reflexivity.
Qed.

(** The colour of three finite quotients. *)
Lemma colour_of_finite_quotients qr qg qb :
  finite_number qr = true -> finite_number qg = true ->
  finite_number qb = true ->
  exists r g b,
    round qr = Ok r /\ round qg = Ok g /\ round qb = Ok b
    /\ (c ← RGBColor.__new__ qr qg qb; RGBColor.clamp c) =
       Ok (RGBColor.Build (clip r) (clip g) (clip b)).
Proof.
  intros Hr Hg Hb.
  destruct (round_finite _ Hr) as [r Er].
  destruct (round_finite _ Hg) as [g Eg].
  destruct (round_finite _ Hb) as [b Eb].
  exists r, g, b. rewrite new_clamp, Er, Eg, Eb. auto.
Qed.

Lemma floordiv_int c z :
  z <> 0 ->
  RGBColor.__floordiv__ c (PyInt z) =
  Ok (RGBColor.Build (clip (RGBColor.red c / z)) (clip (RGBColor.green c / z))
        (clip (RGBColor.blue c / z))).
Proof.
  intros Hz. unfold RGBColor.__floordiv__, floordiv.
  apply Z.eqb_neq in Hz. rewrite Hz. simpl_bind.
  rewrite new_ints. simpl_bind. apply clamp_eq.
Qed.

Lemma truediv_int c z :
  z <> 0 ->
  Z.abs (RGBColor.red c) < 2 ^ 64 -> Z.abs (RGBColor.green c) < 2 ^ 64 ->
  Z.abs (RGBColor.blue c) < 2 ^ 64 ->
  exists fr fg fb r g b,
    int_true_divide (RGBColor.red c) z = Ok fr
    /\ int_true_divide (RGBColor.green c) z = Ok fg
    /\ int_true_divide (RGBColor.blue c) z = Ok fb
    /\ round (PyFloat fr) = Ok r /\ round (PyFloat fg) = Ok g
    /\ round (PyFloat fb) = Ok b
    /\ RGBColor.__truediv__ c (PyInt z) =
       Ok (RGBColor.Build (clip r) (clip g) (clip b)).
Proof.
  intros Hz Hr Hg Hb.
  destruct (int_true_divide_finite _ z Hr Hz) as (fr & Er & Fr).
  destruct (int_true_divide_finite _ z Hg Hz) as (fg & Eg & Fg).
  destruct (int_true_divide_finite _ z Hb Hz) as (fb & Eb & Fb).
  destruct (colour_of_finite_quotients (PyFloat fr) (PyFloat fg) (PyFloat fb)
              Fr Fg Fb) as (r & g & b & Rr & Rg & Rb & E).
  exists fr, fg, fb, r, g, b. repeat (split; [assumption |]).
  unfold RGBColor.__truediv__, truediv. rewrite Er, Eg, Eb.
  simpl_bind. exact E.
Qed.

(** With a divisor that is not zero, [//] has its three quotients, and so
    has [/] by a float. *)
Lemma floordiv_quotient x d :
  fits_float x = true -> is_zero d = false -> exists q, floordiv x d = Ok q.
Proof.
  unfold fits_float, floordiv. intros Hx Hd.
  destruct d as [z | f]; cbn [is_zero] in Hd; rewrite Hd; [eauto |].
  destruct (float_of_int x); [| discriminate].
  simpl_bind. eauto.
Qed.

Lemma truediv_float_quotient x f :
  fits_float x = true -> fzero f = false ->
  exists q, truediv x (PyFloat f) = Ok q.
Proof.
  unfold fits_float, truediv. intros Hx Hd. rewrite Hd.
  destruct (float_of_int x); [| discriminate].
  simpl_bind. eauto.
Qed.

(** C6, as the code has it. For a colour whose channels can be converted
    to float, [/] and [//] raise [ZeroDivisionError] exactly when the
    divisor is zero. With a divisor that is not zero, whenever the three
    quotients are finite numbers the result is the colour of the
    quotients, rounded and then clipped. Division by an int that is not
    zero returns such a colour: always for [//], with the floor
    quotients, and for [/] when the channels are below [2^64] in absolute
    value. *)
Theorem division_by_scalar (c : RGBColor.t) (d : number) :
  fits_float (RGBColor.red c) = true ->
  fits_float (RGBColor.green c) = true ->
  fits_float (RGBColor.blue c) = true ->
  (RGBColor.__truediv__ c d = Raise ZeroDivisionError <-> is_zero d = true)
  /\ (RGBColor.__floordiv__ c d = Raise ZeroDivisionError
      <-> is_zero d = true)
  /\ (forall qr qg qb,
        truediv (RGBColor.red c) d = Ok qr ->
        truediv (RGBColor.green c) d = Ok qg ->
        truediv (RGBColor.blue c) d = Ok qb ->
        finite_number qr = true -> finite_number qg = true ->
        finite_number qb = true ->
        exists r g b,
          round qr = Ok r /\ round qg = Ok g /\ round qb = Ok b
          /\ RGBColor.__truediv__ c d =
             Ok (RGBColor.Build (clip r) (clip g) (clip b)))
  /\ (forall qr qg qb,
        floordiv (RGBColor.red c) d = Ok qr ->
        floordiv (RGBColor.green c) d = Ok qg ->
        floordiv (RGBColor.blue c) d = Ok qb ->
        finite_number qr = true -> finite_number qg = true ->
        finite_number qb = true ->
        exists r g b,
          round qr = Ok r /\ round qg = Ok g /\ round qb = Ok b
          /\ RGBColor.__floordiv__ c d =
             Ok (RGBColor.Build (clip r) (clip g) (clip b)))
  /\ (forall z, d = PyInt z -> z <> 0 ->
        RGBColor.__floordiv__ c d =
        Ok (RGBColor.Build (clip (RGBColor.red c / z))
              (clip (RGBColor.green c / z)) (clip (RGBColor.blue c / z))))
  /\ (forall z, d = PyInt z -> z <> 0 ->
        Z.abs (RGBColor.red c) < 2 ^ 64 ->
        Z.abs (RGBColor.green c) < 2 ^ 64 ->
        Z.abs (RGBColor.blue c) < 2 ^ 64 ->
        exists qr qg qb r g b,
          truediv (RGBColor.red c) d = Ok qr
          /\ truediv (RGBColor.green c) d = Ok qg
          /\ truediv (RGBColor.blue c) d = Ok qb
          /\ round qr = Ok r /\ round qg = Ok g /\ round qb = Ok b
          /\ RGBColor.__truediv__ c d =
             Ok (RGBColor.Build (clip r) (clip g) (clip b))).
Proof.
  intros Hr Hg Hb.
  split; [apply truediv_zero_division_iff; exact Hr |].
  split; [apply floordiv_zero_division_iff; exact Hr |].
  split; [| split; [| split]].
  - intros qr qg qb Er Eg Eb Fr Fg Fb. unfold RGBColor.__truediv__.
    rewrite Er, Eg, Eb. simpl_bind.
    apply colour_of_finite_quotients; assumption.
  - intros qr qg qb Er Eg Eb Fr Fg Fb. unfold RGBColor.__floordiv__.
    rewrite Er, Eg, Eb. simpl_bind.
    apply colour_of_finite_quotients; assumption.
  - intros z -> Hz. apply floordiv_int. exact Hz.
  - intros z -> Hz Br Bg Bb.
    destruct (truediv_int c z Hz Br Bg Bb)
      as (fr & fg & fb & r & g & b & Er & Eg & Eb & Rr & Rg & Rb & E).
    exists (PyFloat fr), (PyFloat fg), (PyFloat fb), r, g, b.
    unfold truediv. rewrite Er, Eg, Eb. repeat split; assumption.
Qed.

Lemma division_by_scalar_witness :
  fits_float 255 = true /\ fits_float 128 = true /\ fits_float 7 = true
  /\ RGBColor.__floordiv__ (RGBColor.Build 255 128 7) (PyInt 2) =
     Ok (RGBColor.Build 127 64 3)
  /\ (RGBColor.__truediv__ (RGBColor.Build 255 128 7) (PyInt 0) =
        Raise ZeroDivisionError <-> is_zero (PyInt 0) = true).
Proof.
  split; [reflexivity |]. split; [reflexivity |]. split; [reflexivity |].
  destruct (division_by_scalar (RGBColor.Build 255 128 7) (PyInt 2))
    as (_ & _ & _ & _ & H & _); [reflexivity | reflexivity | reflexivity |].
  split.
  - apply (H 2); [reflexivity | lia].
  - apply (division_by_scalar (RGBColor.Build 255 128 7) (PyInt 0));
      reflexivity.
Defined.

(** C6, counterexample. NaN is not zero, and dividing white by it raises
    [ValueError] from the constructor's rounding, for [/] and for [//];
    dividing by the smallest positive float gives infinite quotients and
    [OverflowError]. A channel too large for a float raises
    [OverflowError], also when the divisor is [0.0]. *)
Lemma division_by_nan_raises_value_error :
  is_zero (PyFloat S754_nan) = false
  /\ RGBColor.__truediv__ (RGBColor.Build 255 255 255) (PyFloat S754_nan) =
       Raise ValueError
  /\ RGBColor.__floordiv__ (RGBColor.Build 255 255 255) (PyFloat S754_nan) =
       Raise ValueError
  /\ RGBColor.__truediv__ (RGBColor.Build 255 255 255)
       (PyFloat (S754_finite false 1 (-1074))) = Raise OverflowError
  /\ RGBColor.__floordiv__ (RGBColor.Build 255 255 255)
       (PyFloat (S754_finite false 1 (-1074))) = Raise OverflowError
  /\ RGBColor.__truediv__ (RGBColor.Build (10 ^ 400) 0 0)
       (PyFloat (S754_zero false)) = Raise OverflowError
  /\ RGBColor.__truediv__ (RGBColor.Build (10 ^ 400) 0 0) (PyInt 1) =
       Raise OverflowError.
Proof. repeat split; vm_compute; reflexivity. Qed.

End division_props.

Section table_props.

Context {Inherited : Type}.
Variable __name__ : string.
Variable inherited : string -> option Inherited.

Lemma members_count : length RGB.members = 551%nat.
Proof. reflexivity. Qed.


(** A namespace filled by bindings of different names holds each of them,
    and of what it held before, what they left alone. *)
Lemma foldl_insert_lookup {A} (l : list (string * A)) (m : gmap string A)
    name v :
  NoDup (map fst l) ->
  foldl (fun ns kv => <[kv.1 := kv.2]> ns) m l !! name = Some v
  <-> In (name, v) l \/ (~ In name (map fst l) /\ m !! name = Some v).
Proof.
  revert m. induction l as [| [k x] l IH]; intros m N.
  - cbn. split; [intros H; right; split; [intros [] | exact H] |].
    intros [[] | [_ H]]. exact H.
  - cbn [map fst foldl] in *. apply NoDup_cons in N as [Nk N].
    rewrite list_elem_of_In in Nk.
    rewrite (IH _ N). cbn [fst snd]. split.
    + intros [H | [Hn H]]; [left; right; exact H |].
      destruct (decide (k = name)) as [-> | Hk].
      * rewrite lookup_insert_eq in H. injection H as ->.
        left. left. reflexivity.
      * rewrite lookup_insert_ne in H by exact Hk.
        right. split; [| exact H]. intros [E | E]; [exact (Hk E) |].
        exact (Hn E).
    + intros [[E | H] | [Hn H]].
      * injection E as -> ->. right. split; [exact Nk |].
        apply lookup_insert_eq.
      * left. exact H.
      * right. split; [intros E; apply Hn; right; exact E |].
        rewrite lookup_insert_ne; [exact H |].
        intros ->. apply Hn. left. reflexivity.
Qed.

(** The class statement binds no name twice. *)
Lemma statement_names_distinct :
  NoDup (map fst (RGB.statement_bindings (Inherited := Inherited) __name__
                  ++ map (fun kv => (kv.1, RGB.Colour kv.2)) RGB.members)).
Proof.
  apply (bool_decide_unpack _). vm_compute. exact I.
Qed.

(** The namespace holds what the class statement binds, and nothing
    else. *)
Lemma namespace_lookup name (v : RGB.value Inherited) :
  RGB.namespace __name__ !! name = Some v
  <-> In (name, v) (RGB.statement_bindings __name__)
      \/ exists c, v = RGB.Colour c /\ In (name, c) RGB.members.
Proof.
  unfold RGB.namespace.
  rewrite (foldl_insert_lookup _ _ _ _ statement_names_distinct).
  rewrite in_app_iff, in_map_iff. split.
  - intros [[H | ([k c] & E & H)] | [_ H]].
    + left. exact H.
    + injection E as -> <-. right. exists c. split; [reflexivity | exact H].
    + rewrite lookup_empty in H. discriminate.
  - intros [H | (c & -> & H)]; left; [left; exact H |].
    right. exists (name, c). split; [reflexivity | exact H].
Qed.


(** A lookup that gives a colour of the class body gives it under the
    name the class body bound it to. *)
Lemma getattr_bound name c :
  RGB.getattr __name__ inherited name = Ok (RGB.Colour c) ->
  In (name, c) RGB.members.
Proof.
  unfold RGB.getattr. intros E.
  destruct (RGB.namespace __name__ !! name) as [v |] eqn:Ev.
  - injection E as ->. apply namespace_lookup in Ev as [H | (c' & E & H)].
    + cbn in H. destruct H as [H | [H | [H | [H | []]]]]; discriminate.
    + injection E as ->. exact H.
  - destruct (inherited name); discriminate.
Qed.




End table_props.


Section scene_props.

Context {Surface Window Vec Value : Type}.
Variable get_width get_height : Surface -> Z.
Variable window_screen : Window -> Surface.
Variable Vec_new : Z -> Z -> Vec.

Abbreviation Scene := (scene.Scene Surface Value).
Abbreviation store := (scene.store Window).
Abbreviation screen := (scene.screen window_screen).
Abbreviation width := (scene.width get_width window_screen).
Abbreviation height := (scene.height get_height window_screen).
Abbreviation dimension :=
  (scene.dimension get_width get_height window_screen Vec_new).

(** C8. Without [args], or with [None], the scene has the empty mapping;
    a mapping that is given is the one stored. *)
Theorem init_args (w : ref) (a : gmap string Value) :
  args (__init__ w None : Scene) = ∅
  /\ args (__init__ w (Some a) : Scene) = a
  /\ window (__init__ w (Some a) : Scene) = w.
Proof. repeat split. Qed.

(** C10. [width], [height] and [dimension] are read from the surface the
    window has when they are called, whatever [screen_cache] is; setting
    [screen_cache] changes [screen] alone, to the stored surface when it
    is set and to the window's surface when it is not; a new scene has
    it unset. *)
Theorem accessors_read_window (σ : store) (self : Scene) (b : bool) :
  width σ (set_screen_cache b self)
    = get_width (window_screen (σ (window self)))
  /\ height σ (set_screen_cache b self)
    = get_height (window_screen (σ (window self)))
  /\ dimension σ (set_screen_cache b self)
    = Vec_new (get_width (window_screen (σ (window self))))
        (get_height (window_screen (σ (window self))))
  /\ (forall w',
        width (rebind (window self) w' σ) (set_screen_cache b self)
          = get_width (window_screen w')
        /\ height (rebind (window self) w' σ) (set_screen_cache b self)
          = get_height (window_screen w'))
  /\ screen σ (set_screen_cache true self) = _screen self
  /\ screen σ (set_screen_cache false self)
     = Some (window_screen (σ (window self)))
  /\ (window (set_screen_cache b self) = window self
      /\ args (set_screen_cache b self) = args self
      /\ _screen (set_screen_cache b self) = _screen self)
  /\ (forall w a,
        screen_cache (__init__ w a : Scene) = false
        /\ screen σ (__init__ w a) = Some (window_screen (σ w))).
Proof.
  repeat split.
  - unfold scene.width, rebind. cbn. rewrite decide_True by reflexivity.
    reflexivity.
  - unfold scene.height, rebind. cbn. rewrite decide_True by reflexivity.
    reflexivity.
Qed.

End scene_props.

(** * Further properties of the colour type *)

Section equality_props.

(** X1. [==] holds exactly between colours with the same three channels,
    and [!=] is its negation. *)
Theorem eq_ne_componentwise (a b : RGBColor.t) :
  (RGBColor.__eq__ a b = true <-> a = b)
  /\ RGBColor.__ne__ a b = negb (RGBColor.__eq__ a b).
Proof.
  destruct a as [r1 g1 b1], b as [r2 g2 b2].
  unfold RGBColor.__eq__, RGBColor.__ne__. cbn. split.
  - rewrite !andb_true_iff, !Z.eqb_eq. split.
    + intros [[-> ->] ->]. reflexivity.
    + intros [= -> -> ->]. auto.
  - destruct (r1 =? r2), (g1 =? g2), (b1 =? b2); reflexivity.
Qed.

End equality_props.

Section dict_props.

(** X2. [dict(keys)] raises [IndexError] exactly when fewer than three
    keys are given. Otherwise the key in third place is bound to blue,
    the key in second place to green unless it is the third key too, the
    key in first place to red unless it comes again; no other key is
    bound, and three different keys give three entries. *)
Theorem dict_binds_keys (c : RGBColor.t) (keys : list string) :
  (RGBColor.dict c keys = Raise IndexError <-> (length keys < 3)%nat)
  /\ (forall k0 k1 k2 rest, keys = k0 :: k1 :: k2 :: rest ->
        exists d : gmap string Z,
          RGBColor.dict c keys = Ok d
          /\ d !! k2 = Some (RGBColor.blue c)
          /\ (k1 <> k2 -> d !! k1 = Some (RGBColor.green c))
          /\ (k0 <> k1 -> k0 <> k2 -> d !! k0 = Some (RGBColor.red c))
          /\ (forall k, k <> k0 -> k <> k1 -> k <> k2 -> d !! k = None)
          /\ (k0 <> k1 -> k0 <> k2 -> k1 <> k2 -> size d = 3%nat)).
Proof.
  split.
  - destruct keys as [| k0 [| k1 [| k2 rest]]]; cbn; split;
      try reflexivity; try lia; discriminate.
  - intros k0 k1 k2 rest ->. eexists. split; [reflexivity |].
    split; [apply lookup_insert_eq |].
    split.
    { intros H. rewrite lookup_insert_ne by congruence.
      apply lookup_insert_eq. }
    split.
    { intros H1 H2. rewrite !lookup_insert_ne by congruence.
      apply lookup_insert_eq. }
    split.
    { intros k H0 H1 H2. rewrite !lookup_insert_ne by congruence.
      apply lookup_empty. }
    intros H01 H02 H12.
    rewrite !map_size_insert_None; [reflexivity | apply lookup_empty | |].
    + rewrite lookup_insert_ne by congruence. apply lookup_empty.
    + rewrite !lookup_insert_ne by congruence. apply lookup_empty.
Qed.

End dict_props.

Section range_props.

Lemma in_range_clip r g b :
  in_range (RGBColor.Build (clip r) (clip g) (clip b)).
Proof. unfold in_range. cbn. pose proof clip_range. auto. Qed.

Lemma new_clamp_in_range qr qg qb c :
  (x ← RGBColor.__new__ qr qg qb; RGBColor.clamp x) = Ok c -> in_range c.
Proof.
  rewrite new_clamp.
  destruct (round qr) as [r |]; simpl_bind; [| discriminate].
  destruct (round qg) as [g |]; simpl_bind; [| discriminate].
  destruct (round qb) as [b |]; simpl_bind; [| discriminate].
  intros [= <-]. apply in_range_clip.
Qed.

Lemma halve_range k : 0 <= k <= 255 -> 0 <= halve k <= 128.
Proof.
  intros Hk. unfold halve.
  pose proof (Z.div_mod k 2 ltac:(lia)). pose proof (Z.mod_pos_bound k 2).
  destruct (Z.even k); [lia |]. destruct (Z.even (k / 2)); lia.
Qed.

(** X3. Every operation that ends in [clamp] gives a colour with all
    channels in [0, 255]: [clamp], [+], [-] and [mix] always return one,
    and [*], [/] and [//] return nothing else, whatever the operands. *)
Theorem results_in_range (a b : RGBColor.t) (k : number) :
  (exists c, RGBColor.clamp a = Ok c /\ in_range c)
  /\ (exists c, RGBColor.__add__ a b = Ok c /\ in_range c)
  /\ (exists c, RGBColor.__sub__ a b = Ok c /\ in_range c)
  /\ (exists c, RGBColor.mix a b = Ok c /\ in_range c)
  /\ (forall c, RGBColor.__mul__ a k = Ok c -> in_range c)
  /\ (forall c, RGBColor.__truediv__ a k = Ok c -> in_range c)
  /\ (forall c, RGBColor.__floordiv__ a k = Ok c -> in_range c).
Proof.
  split; [eexists; split; [apply clamp_eq | apply in_range_clip] |].
  split; [eexists; split; [apply add_eq | apply in_range_clip] |].
  split; [eexists; split; [apply sub_eq | apply in_range_clip] |].
  split.
  { eexists; split; [apply mix_eq |]. unfold in_range. cbn.
    pose proof (fun x => halve_range _ (clip_range x)) as H.
    pose proof (H (RGBColor.red a + RGBColor.red b)).
    pose proof (H (RGBColor.green a + RGBColor.green b)).
    pose proof (H (RGBColor.blue a + RGBColor.blue b)). lia. }
  split; [| split]; intros c.
  - unfold RGBColor.__mul__.
    destruct (mul (RGBColor.red a) k); simpl_bind; [| discriminate].
    destruct (mul (RGBColor.green a) k); simpl_bind; [| discriminate].
    destruct (mul (RGBColor.blue a) k); simpl_bind; [| discriminate].
    apply new_clamp_in_range.
  - unfold RGBColor.__truediv__.
    destruct (truediv (RGBColor.red a) k); simpl_bind; [| discriminate].
    destruct (truediv (RGBColor.green a) k); simpl_bind; [| discriminate].
    destruct (truediv (RGBColor.blue a) k); simpl_bind; [| discriminate].
    apply new_clamp_in_range.
  - unfold RGBColor.__floordiv__.
    destruct (floordiv (RGBColor.red a) k); simpl_bind; [| discriminate].
    destruct (floordiv (RGBColor.green a) k); simpl_bind; [| discriminate].
    destruct (floordiv (RGBColor.blue a) k); simpl_bind; [| discriminate].
    apply new_clamp_in_range.
Qed.

End range_props.

Section algebra_props.

Lemma clamp_in_range c : in_range c -> RGBColor.clamp c = Ok c.
Proof.
  intros (Hr & Hg & Hb). rewrite clamp_eq.
  rewrite (clip_id _ Hr), (clip_id _ Hg), (clip_id _ Hb).
  destruct c; reflexivity.
Qed.

(** X4. [+] is commutative, and associative on colours whose channels are
    not negative: the sums are cut off at 255 either way. *)
Theorem add_commutative_associative (a b c : RGBColor.t) :
  RGBColor.__add__ a b = RGBColor.__add__ b a
  /\ (0 <= RGBColor.red a /\ 0 <= RGBColor.green a /\ 0 <= RGBColor.blue a ->
      0 <= RGBColor.red b /\ 0 <= RGBColor.green b /\ 0 <= RGBColor.blue b ->
      0 <= RGBColor.red c /\ 0 <= RGBColor.green c /\ 0 <= RGBColor.blue c ->
      (x ← RGBColor.__add__ a b; RGBColor.__add__ x c)
      = (y ← RGBColor.__add__ b c; RGBColor.__add__ a y)).
Proof.
  split.
  - rewrite !add_eq. f_equal. f_equal; f_equal; lia.
  - intros Ha Hb Hc. rewrite !add_eq. simpl_bind. rewrite !add_eq. cbn.
    unfold clip. f_equal. f_equal; lia.
Qed.

(** X5. On colours in range, subtracting [b] and adding it back gives the
    larger of the two channels, and adding [b] and subtracting it again
    gives the smaller of the channel and the room [b] leaves below 255:
    [a] comes back only where nothing was cut off. *)
Theorem sub_add_max_add_sub_min (a b : RGBColor.t) :
  in_range a -> in_range b ->
  (x ← RGBColor.__sub__ a b; RGBColor.__add__ x b)
    = Ok (zip_channels Z.max a b)
  /\ (x ← RGBColor.__add__ a b; RGBColor.__sub__ x b)
    = Ok (zip_channels (fun x y => Z.min x (255 - y)) a b).
Proof.
  intros (Ar & Ag & Ab) (Br & Bg & Bb).
  rewrite add_eq, sub_eq. simpl_bind. rewrite add_eq, sub_eq.
  unfold zip_channels, clip. cbn. split; f_equal; f_equal; lia.
Qed.

Lemma sub_add_max_add_sub_min_witness :
  (in_range (RGBColor.Build 10 200 30) /\ in_range (RGBColor.Build 50 100 30))
  /\ (x ← RGBColor.__sub__ (RGBColor.Build 10 200 30)
             (RGBColor.Build 50 100 30);
      RGBColor.__add__ x (RGBColor.Build 50 100 30))
     = Ok (RGBColor.Build 50 200 30)
  /\ (x ← RGBColor.__add__ (RGBColor.Build 10 200 30)
             (RGBColor.Build 50 100 30);
      RGBColor.__sub__ x (RGBColor.Build 50 100 30))
     = Ok (RGBColor.Build 10 155 30).
Proof.
  split; [unfold in_range; cbn; lia |].
  apply (sub_add_max_add_sub_min (RGBColor.Build 10 200 30)
           (RGBColor.Build 50 100 30)); unfold in_range; cbn; lia.
Defined.

End algebra_props.

Section mul_props.

Lemma mul_int_eq c k :
  RGBColor.__mul__ c (PyInt k) = Ok (map_channels (fun x => clip (x * k)) c).
Proof.
  unfold RGBColor.__mul__, mul. simpl_bind. rewrite new_ints. simpl_bind.
  apply clamp_eq.
Qed.

(** X6. Multiplying by an int always returns the colour of the clipped
    products. So [c * 1] is [c.clamp()], which is [c] itself when [c] is
    in range, and a colour without negative channels times an int that is
    not positive is black. *)
Theorem mul_by_int (c : RGBColor.t) (k : Z) :
  RGBColor.__mul__ c (PyInt k) = Ok (map_channels (fun x => clip (x * k)) c)
  /\ RGBColor.__mul__ c (PyInt 1) = RGBColor.clamp c
  /\ (in_range c -> RGBColor.__mul__ c (PyInt 1) = Ok c)
  /\ (0 <= RGBColor.red c -> 0 <= RGBColor.green c -> 0 <= RGBColor.blue c ->
      k <= 0 -> RGBColor.__mul__ c (PyInt k) = Ok (RGBColor.Build 0 0 0)).
Proof.
  split; [apply mul_int_eq |].
  assert (H1 : RGBColor.__mul__ c (PyInt 1) = RGBColor.clamp c).
  { rewrite mul_int_eq, clamp_eq. unfold map_channels.
    rewrite !Z.mul_1_r. reflexivity. }
  split; [exact H1 |].
  split; [intros H; rewrite H1; apply clamp_in_range; exact H |].
  intros Hr Hg Hb Hk. rewrite mul_int_eq. unfold map_channels, clip.
  f_equal. f_equal; nia.
Qed.

(** X7. [mix] is the sum times [0.5]: its last [clamp] changes nothing.
    It is commutative, and no channel of a mixed colour exceeds 128, half
    of the 255 at which the sum is cut off. *)
Theorem mix_is_half_of_clamped_sum (a b : RGBColor.t) :
  RGBColor.mix a b
    = (s ← RGBColor.__add__ a b; RGBColor.__mul__ s (PyFloat half))
  /\ RGBColor.mix a b = RGBColor.mix b a
  /\ exists c,
       RGBColor.mix a b = Ok c
       /\ 0 <= RGBColor.red c <= 128 /\ 0 <= RGBColor.green c <= 128
       /\ 0 <= RGBColor.blue c <= 128.
Proof.
  split; [| split].
  - unfold RGBColor.mix.
    destruct (RGBColor.__add__ a b) as [s |]; simpl_bind; [| reflexivity].
    destruct (RGBColor.__mul__ s (PyFloat half)) as [m |] eqn:E;
      simpl_bind; [| reflexivity].
    apply clamp_in_range.
    unfold RGBColor.__mul__ in E.
    destruct (mul (RGBColor.red s) (PyFloat half)); simpl_bind in E;
      [| discriminate].
    destruct (mul (RGBColor.green s) (PyFloat half)); simpl_bind in E;
      [| discriminate].
    destruct (mul (RGBColor.blue s) (PyFloat half)); simpl_bind in E;
      [| discriminate].
    exact (new_clamp_in_range _ _ _ _ E).
  - rewrite !mix_eq. f_equal. f_equal; f_equal; f_equal; lia.
  - eexists. split; [apply mix_eq |]. cbn.
    pose proof (fun x => halve_range _ (clip_range x)) as H.
    pose proof (H (RGBColor.red a + RGBColor.red b)).
    pose proof (H (RGBColor.green a + RGBColor.green b)).
    pose proof (H (RGBColor.blue a + RGBColor.blue b)). lia.
Qed.

(** X8. On a colour in range, [* 0.5] halves every channel, a half going
    to the even neighbour; so mixing a colour in range with itself gives
    it back exactly when no channel exceeds 128. *)
Theorem half_and_self_mix (c : RGBColor.t) :
  in_range c ->
  RGBColor.__mul__ c (PyFloat half) = Ok (map_channels halve c)
  /\ (RGBColor.mix c c = Ok c <->
      RGBColor.red c <= 128 /\ RGBColor.green c <= 128
      /\ RGBColor.blue c <= 128).
Proof.
  intros (Hr & Hg & Hb). split.
  - unfold RGBColor.__mul__.
    destruct (mul_half _ Hr) as (x & -> & Rx & Bx).
    destruct (mul_half _ Hg) as (y & -> & Ry & By).
    destruct (mul_half _ Hb) as (z & -> & Rz & Bz).
    simpl_bind. rewrite new_clamp, Rx, Ry, Rz. simpl_bind.
    rewrite (clip_id _ Bx), (clip_id _ By), (clip_id _ Bz). reflexivity.
  - rewrite mix_eq. destruct c as [r g b]. cbn in *.
    assert (H : forall x, 0 <= x <= 255 ->
                halve (clip (x + x)) = x <-> x <= 128).
    { intros x Hx. destruct (Z.le_gt_cases x 127).
      - replace (clip (x + x)) with (x * 2) by (unfold clip; lia).
        unfold halve. rewrite Z.even_mul, Z.div_mul by lia.
        rewrite orb_true_r. lia.
      - replace (clip (x + x)) with 255 by (unfold clip; lia).
        change (halve 255) with 128. lia. }
    split.
    + intros [= E1 E2 E3]. apply H in E1, E2, E3; lia.
    + intros (E1 & E2 & E3). apply H in E1, E2, E3; [| lia ..].
      congruence.
Qed.

Lemma half_and_self_mix_witness :
  in_range (RGBColor.Build 1 3 255)
  /\ RGBColor.__mul__ (RGBColor.Build 1 3 255) (PyFloat half)
     = Ok (RGBColor.Build 0 2 128).
Proof.
  split; [unfold in_range; cbn; lia |].
  apply (half_and_self_mix (RGBColor.Build 1 3 255)).
  unfold in_range; cbn; lia.
Defined.

End mul_props.

Section division_on_bytes.

Lemma truediv_rounds_all n d :
  0 <= n <= 255 -> 1 <= d <= 255 -> truediv_rounds_ok n d = true.
Proof.
  intros Hn Hd.
  assert (H : forallb
                (fun n => forallb (fun d => truediv_rounds_ok n (d + 1))
                            (map Z.of_nat (seq 0 255)))
                (map Z.of_nat (seq 0 256)) = true)
    by (vm_compute; reflexivity).
  pose proof (byte_forall _ H n Hn) as H1. cbv beta in H1.
  rewrite forallb_forall in H1.
  replace d with (Z.of_nat (Z.to_nat (d - 1)) + 1) by lia.
  apply (H1 (Z.of_nat (Z.to_nat (d - 1)))).
  apply in_map_iff. exists (Z.to_nat (d - 1)). split; [reflexivity |].
  apply in_seq. lia.
Qed.

Lemma truediv_byte n d :
  0 <= n <= 255 -> 1 <= d <= 255 ->
  exists q, truediv n (PyInt d) = Ok q /\ round q = Ok (div_nearest_even n d).
Proof.
  intros Hn Hd. pose proof (truediv_rounds_all n d Hn Hd) as H.
  unfold truediv_rounds_ok in H.
  destruct (truediv n (PyInt d)) as [q |]; [| discriminate].
  destruct (round q) as [z |] eqn:E; [| discriminate].
  apply Z.eqb_eq in H. subst z. eauto.
Qed.

Lemma div_nearest_even_bounds n d :
  0 <= n -> 1 <= d -> n / d <= div_nearest_even n d <= n / d + 1.
Proof.
  intros Hn Hd. unfold div_nearest_even.
  destruct (2 * (n mod d) ?= d); [destruct (Z.even (n / d)) | |]; lia.
Qed.

Lemma div_nearest_even_le n d :
  0 <= n -> 1 <= d -> div_nearest_even n d <= n.
Proof.
  intros Hn Hd. unfold div_nearest_even.
  pose proof (Z.div_mod n d ltac:(lia)) as E.
  pose proof (Z.mod_pos_bound n d ltac:(lia)) as B.
  assert (0 <= n / d) by (apply Z.div_pos; lia).
  destruct (2 * (n mod d) ?= d) eqn:C.
  - apply Z.compare_eq in C. destruct (Z.even (n / d)); nia.
  - nia.
  - apply Z.compare_gt_iff in C. nia.
Qed.

(** X9. Dividing a colour in range by an int from 1 to 255: [/] gives
    every channel the quotient rounded to the nearest integer, a tie going
    to the even one, and [//] gives the quotient rounded down, so [/] is
    [//] or one more in every channel. Nothing is cut off by the clamp;
    dividing by 1 returns the colour itself. *)
Theorem division_of_bytes (c : RGBColor.t) (d : Z) :
  in_range c -> 1 <= d <= 255 ->
  RGBColor.__truediv__ c (PyInt d)
    = Ok (map_channels (fun x => div_nearest_even x d) c)
  /\ RGBColor.__floordiv__ c (PyInt d) = Ok (map_channels (fun x => x / d) c)
  /\ (forall x, 0 <= x ->
        x / d <= div_nearest_even x d <= x / d + 1)
  /\ (d = 1 -> RGBColor.__truediv__ c (PyInt d) = Ok c
               /\ RGBColor.__floordiv__ c (PyInt d) = Ok c).
Proof.
  intros (Hr & Hg & Hb) Hd.
  assert (T : RGBColor.__truediv__ c (PyInt d)
              = Ok (map_channels (fun x => div_nearest_even x d) c)).
  { unfold RGBColor.__truediv__.
    destruct (truediv_byte _ d Hr Hd) as (qr & -> & Rr).
    destruct (truediv_byte _ d Hg Hd) as (qg & -> & Rg).
    destruct (truediv_byte _ d Hb Hd) as (qb & -> & Rb).
    simpl_bind. rewrite new_clamp, Rr, Rg, Rb. simpl_bind.
    unfold map_channels. f_equal. f_equal; apply clip_id.
    - pose proof (div_nearest_even_bounds (RGBColor.red c) d).
      pose proof (div_nearest_even_le (RGBColor.red c) d).
      assert (0 <= RGBColor.red c / d) by (apply Z.div_pos; lia). lia.
    - pose proof (div_nearest_even_bounds (RGBColor.green c) d).
      pose proof (div_nearest_even_le (RGBColor.green c) d).
      assert (0 <= RGBColor.green c / d) by (apply Z.div_pos; lia). lia.
    - pose proof (div_nearest_even_bounds (RGBColor.blue c) d).
      pose proof (div_nearest_even_le (RGBColor.blue c) d).
      assert (0 <= RGBColor.blue c / d) by (apply Z.div_pos; lia). lia. }
  assert (F : RGBColor.__floordiv__ c (PyInt d)
              = Ok (map_channels (fun x => x / d) c)).
  { rewrite floordiv_int by lia. unfold map_channels.
    assert (B : forall x, 0 <= x <= 255 -> 0 <= x / d <= 255).
    { intros x Hx. split; [apply Z.div_pos; lia |].
      apply Z.le_trans with (x / 1); [| rewrite Z.div_1_r; lia].
      apply Z.div_le_compat_l; lia. }
    rewrite (clip_id _ (B _ Hr)), (clip_id _ (B _ Hg)), (clip_id _ (B _ Hb)).
    reflexivity. }
  split; [exact T |]. split; [exact F |].
  split; [intros x Hx; apply div_nearest_even_bounds; lia |].
  intros ->. rewrite T, F. unfold map_channels, div_nearest_even.
  rewrite !Z.div_1_r, !Z.mod_1_r. cbn. destruct c; split; reflexivity.
Qed.

Lemma division_of_bytes_witness :
  (in_range (RGBColor.Build 255 10 7) /\ 1 <= 2 <= 255)
  /\ RGBColor.__truediv__ (RGBColor.Build 255 10 7) (PyInt 2)
     = Ok (RGBColor.Build 128 5 4)
  /\ RGBColor.__floordiv__ (RGBColor.Build 255 10 7) (PyInt 2)
     = Ok (RGBColor.Build 127 5 3).
Proof.
  split; [unfold in_range; cbn; lia |].
  destruct (division_of_bytes (RGBColor.Build 255 10 7) 2)
    as (T & F & _); [unfold in_range; cbn; lia | lia |].
  split; [exact T | exact F].
Defined.

End division_on_bytes.

Section negative_divisor.

Lemma nearest_even_nonneg m e : 0 <= m -> 0 <= nearest_even m e.
Proof.
  intros Hm. unfold nearest_even. destruct (0 <=? e) eqn:E.
  - apply Z.leb_le in E. apply Z.mul_nonneg_nonneg; [lia |].
    apply Z.pow_nonneg. lia.
  - apply Z.leb_gt in E.
    assert (P : 0 < 2 ^ (- e)) by (apply Z.pow_pos_nonneg; lia).
    assert (Q : 0 <= m / 2 ^ (- e)) by (apply Z.div_pos; lia).
    destruct (2 * (m mod 2 ^ (- e)) ?= 2 ^ (- e));
      [destruct (Z.even (m / 2 ^ (- e))) | |]; lia.
Qed.

(** Rounding keeps the sign it is given. *)
Lemma binary_round_aux_sign sx mx ex lx :
  match binary_round_aux prec emax sx mx ex lx with
  | S754_zero s | S754_infinity s | S754_finite s _ _ => s = sx
  | S754_nan => True
  end.
Proof.
  unfold binary_round_aux.
  destruct (shr_fexp prec emax mx ex lx) as [mrs' e'].
  destruct (shr_fexp prec emax _ e' loc_Exact) as [mrs'' e''].
  destruct (shr_m mrs''); [reflexivity | | exact I].
  destruct (e'' <=? emax - prec); reflexivity.
Qed.

Lemma truediv_negative x z :
  0 <= x < 2 ^ 64 -> z < 0 ->
  exists q r, truediv x (PyInt z) = Ok q /\ round q = Ok r /\ r <= 0.
Proof.
  intros Hx Hz.
  destruct (int_true_divide_finite x z ltac:(lia) ltac:(lia))
    as (f & E & F).
  exists (PyFloat f). unfold truediv. rewrite E. simpl_bind.
  unfold int_true_divide in E.
  destruct (z =? 0); [discriminate |].
  destruct (finf (SFdiv prec emax (exact_of_int x) (exact_of_int z)));
    [discriminate |].
  injection E as E.
  destruct x as [| a | a]; [| | lia]; destruct z as [| b | b]; try lia.
  - cbn in E. subst f. exists 0.
    split; [reflexivity | split; [reflexivity | lia]].
  - cbn [exact_of_int SFdiv] in E.
    destruct (SFdiv_core_binary prec emax (Z.pos a) 0 (Z.pos b) 0)
      as [[mz ez] lz].
    pose proof (binary_round_aux_sign (xorb false true) mz ez lz) as S.
    rewrite E in S.
    destruct f as [s | s | | s m e]; try discriminate.
    + exists 0. split; [reflexivity | split; [reflexivity | lia]].
    + cbn in S. subst s. eexists.
      split; [reflexivity | split; [reflexivity |]].
      pose proof (nearest_even_nonneg (Z.pos m) e ltac:(lia)). lia.
Qed.

(** X10. A colour whose channels are not negative, divided by a negative
    int, is black: every quotient is zero or less and is clipped to 0.
    For [/] the channels are taken below [2^64]. *)
Theorem negative_divisor_gives_black (c : RGBColor.t) (d : Z) :
  0 <= RGBColor.red c < 2 ^ 64 -> 0 <= RGBColor.green c < 2 ^ 64 ->
  0 <= RGBColor.blue c < 2 ^ 64 -> d < 0 ->
  RGBColor.__truediv__ c (PyInt d) = Ok (RGBColor.Build 0 0 0)
  /\ RGBColor.__floordiv__ c (PyInt d) = Ok (RGBColor.Build 0 0 0).
Proof.
  intros Hr Hg Hb Hd. split.
  - unfold RGBColor.__truediv__.
    destruct (truediv_negative _ d Hr Hd) as (qr & r & -> & Rr & Lr).
    destruct (truediv_negative _ d Hg Hd) as (qg & g & -> & Rg & Lg).
    destruct (truediv_negative _ d Hb Hd) as (qb & b & -> & Rb & Lb).
    simpl_bind. rewrite new_clamp, Rr, Rg, Rb. simpl_bind.
    unfold clip. f_equal. f_equal; lia.
  - rewrite floordiv_int by lia.
    assert (N : forall x, 0 <= x -> x / d <= 0).
    { intros x Hx.
      pose proof (Z.div_mod x d ltac:(lia)).
      pose proof (Z.mod_neg_bound x d Hd). nia. }
    pose proof (N _ (proj1 Hr)). pose proof (N _ (proj1 Hg)).
    pose proof (N _ (proj1 Hb)).
    unfold clip. f_equal. f_equal; lia.
Qed.

Lemma negative_divisor_gives_black_witness :
  (0 <= 255 < 2 ^ 64 /\ 0 <= 10 < 2 ^ 64 /\ 0 <= 0 < 2 ^ 64 /\ -3 < 0)
  /\ RGBColor.__truediv__ (RGBColor.Build 255 10 0) (PyInt (-3))
     = Ok (RGBColor.Build 0 0 0)
  /\ RGBColor.__floordiv__ (RGBColor.Build 255 10 0) (PyInt (-3))
     = Ok (RGBColor.Build 0 0 0).
Proof.
  split; [lia |].
  apply (negative_divisor_gives_black (RGBColor.Build 255 10 0) (-3));
    cbn; lia.
Defined.

End negative_divisor.

Section from_hex_more.

Lemma hex_char_range a : hex_char a = true -> 0 <= digit_value a <= 15.
Proof.
  unfold hex_char. intros H. apply Z.ltb_lt in H. split; [| lia].
  unfold digit_value. repeat case_match; lia.
Qed.

Lemma substring_0_0 s : String.substring 0 0 s = EmptyString.
Proof. destruct s; reflexivity. Qed.

(** X11. When the text left after the deletions starts with six
    hexadecimal digits, of either case, [from_hex] returns the colour they
    spell, two digits a channel, which is in range; whatever follows the
    sixth digit is ignored. *)
Theorem from_hex_six_digits (value rest : string) (a b c d e f : ascii) :
  cleaned value
    = String a (String b (String c (String d (String e (String f rest))))) ->
  hex_char a = true -> hex_char b = true -> hex_char c = true ->
  hex_char d = true -> hex_char e = true -> hex_char f = true ->
  RGBColor.from_hex value
    = Ok (RGBColor.Build (hex_pair_value a b) (hex_pair_value c d)
            (hex_pair_value e f))
  /\ in_range (RGBColor.Build (hex_pair_value a b) (hex_pair_value c d)
                 (hex_pair_value e f)).
Proof.
  intros Hv Ha Hb Hc Hd He Hf. split.
  - rewrite from_hex_groups. unfold group, slice. rewrite Hv.
    cbn [String.substring Nat.mul Nat.add Nat.sub].
    rewrite substring_0_0.
    rewrite (int16_two_hex_chars a b Ha Hb), (int16_two_hex_chars c d Hc Hd),
      (int16_two_hex_chars e f He Hf).
    reflexivity.
  - unfold in_range, hex_pair_value. cbn.
    pose proof (hex_char_range a Ha). pose proof (hex_char_range b Hb).
    pose proof (hex_char_range c Hc). pose proof (hex_char_range d Hd).
    pose proof (hex_char_range e He). pose proof (hex_char_range f Hf).
    lia.
Qed.

Lemma from_hex_six_digits_witness :
  cleaned "#FFa001 and more" = "FFa001 and more"
  /\ RGBColor.from_hex "#FFa001 and more" = Ok (RGBColor.Build 255 160 1).
Proof.
  split; [reflexivity |].
  apply (from_hex_six_digits "#FFa001 and more" " and more"
           "F" "F" "a" "0" "0" "1"); reflexivity.
Defined.

Lemma two_hex_of_pair a b :
  hex_char a = true -> hex_char b = true ->
  format_02x (hex_pair_value a b)
  = String (lower_hex a) (String (lower_hex b) EmptyString).
Proof.
  intros Ha Hb.
  pose proof (hex_char_range a Ha). pose proof (hex_char_range b Hb).
  destruct (byte_format (hex_pair_value a b)) as (-> & _);
    [unfold hex_pair_value; lia |].
  unfold two_hex, lower_hex, hex_pair_value.
  replace ((16 * digit_value a + digit_value b) / 16) with (digit_value a)
    by (apply Z.div_unique with (digit_value b); lia).
  replace ((16 * digit_value a + digit_value b) mod 16) with (digit_value b)
    by (apply Z.mod_unique with (digit_value a); lia).
  reflexivity.
Qed.

(** X12. Decoding and encoding again: when the text left after the
    deletions starts with six hexadecimal digits, [hex] of the colour
    [from_hex] returns is [#] and those six digits in lowercase. *)
Theorem hex_of_from_hex (value rest : string) (a b c d e f : ascii) :
  cleaned value
    = String a (String b (String c (String d (String e (String f rest))))) ->
  hex_char a = true -> hex_char b = true -> hex_char c = true ->
  hex_char d = true -> hex_char e = true -> hex_char f = true ->
  exists col,
    RGBColor.from_hex value = Ok col
    /\ RGBColor.hex col
       = String "#" (String (lower_hex a) (String (lower_hex b)
           (String (lower_hex c) (String (lower_hex d)
             (String (lower_hex e) (String (lower_hex f) EmptyString)))))).
Proof.
  intros Hv Ha Hb Hc Hd He Hf. eexists. split.
  - rewrite from_hex_groups. unfold group, slice. rewrite Hv.
    cbn [String.substring Nat.mul Nat.add Nat.sub].
    rewrite substring_0_0.
    rewrite (int16_two_hex_chars a b Ha Hb), (int16_two_hex_chars c d Hc Hd),
      (int16_two_hex_chars e f He Hf).
    reflexivity.
  - unfold RGBColor.hex. cbn [RGBColor.red RGBColor.green RGBColor.blue].
    change (16 * digit_value a + digit_value b) with (hex_pair_value a b).
    change (16 * digit_value c + digit_value d) with (hex_pair_value c d).
    change (16 * digit_value e + digit_value f) with (hex_pair_value e f).
    rewrite (two_hex_of_pair a b Ha Hb), (two_hex_of_pair c d Hc Hd),
      (two_hex_of_pair e f He Hf).
    reflexivity.
Qed.

Lemma hex_of_from_hex_witness :
  cleaned "0xDEADbeef" = "DEADbeef"
  /\ exists col,
       RGBColor.from_hex "0xDEADbeef" = Ok col
       /\ RGBColor.hex col = "#deadbe".
Proof.
  split; [reflexivity |].
  apply (hex_of_from_hex "0xDEADbeef" "ef" "D" "E" "A" "D" "b" "e");
    reflexivity.
Defined.

End from_hex_more.

Section from_hex_bounds.

Lemma substring_2_cases i s :
  String.substring i 2 s = EmptyString
  \/ (exists a, String.substring i 2 s = String a EmptyString)
  \/ (exists a b, String.substring i 2 s = String a (String b EmptyString)).
Proof.
  revert i. induction s as [| c s IH]; intros i.
  - left. destruct i; reflexivity.
  - destruct i as [| i]; [| apply IH].
    destruct s as [| c' s'].
    + right. left. exists c. reflexivity.
    + right. right. exists c, c'. cbn. rewrite substring_0_0. reflexivity.
Qed.

Lemma short_parse_bounded_all s :
  (String.length s <= 2)%nat -> short_parse_bounded s = true.
Proof.
  assert (H1 : forallb (fun a => short_parse_bounded (String a EmptyString))
                 (map ascii_of_nat (seq 0 256)) = true)
    by (vm_compute; reflexivity).
  assert (H2 : forallb
                 (fun a => forallb
                    (fun b => short_parse_bounded
                                (String a (String b EmptyString)))
                    (map ascii_of_nat (seq 0 256)))
                 (map ascii_of_nat (seq 0 256)) = true)
    by (vm_compute; reflexivity).
  destruct s as [| a [| b [| c s]]]; cbn [String.length]; intros H;
    [reflexivity | | | lia].
  - exact (ascii_forall _ H1 a).
  - pose proof (ascii_forall _ H2 a) as Ha. cbv beta in Ha.
    exact (ascii_forall _ Ha b).
Qed.

Lemma group_bounded value k v :
  int16 (group value k) = Ok v -> -15 <= v <= 255.
Proof.
  intros E.
  assert (L : (String.length (group value k) <= 2)%nat).
  { unfold group, slice. replace (2 * k + 2 - 2 * k)%nat with 2%nat by lia.
    destruct (substring_2_cases (2 * k) (cleaned value))
      as [-> | [[a ->] | (a & b & ->)]]; cbn; lia. }
  pose proof (short_parse_bounded_all _ L) as B.
  unfold short_parse_bounded in B. rewrite E in B.
  apply andb_prop in B as [B1 B2]. lia.
Qed.

(** X13. Whatever text [from_hex] accepts, every channel of the colour is
    between -15 and 255: a slice of two characters can spell a sign and
    one digit, so a channel may be negative, but never below -15. *)
Theorem from_hex_channel_bounds (value : string) (c : RGBColor.t) :
  RGBColor.from_hex value = Ok c ->
  -15 <= RGBColor.red c <= 255 /\ -15 <= RGBColor.green c <= 255
  /\ -15 <= RGBColor.blue c <= 255.
Proof.
  rewrite from_hex_groups.
  destruct (int16 (group value 0)) as [r |] eqn:Er; simpl_bind;
    [| discriminate].
  destruct (int16 (group value 1)) as [g |] eqn:Eg; simpl_bind;
    [| discriminate].
  destruct (int16 (group value 2)) as [b |] eqn:Eb; simpl_bind;
    [| discriminate].
  intros [= <-]. cbn.
  split; [| split]; eapply group_bounded; eassumption.
Qed.

Lemma from_hex_channel_bounds_witness :
  RGBColor.from_hex "-fff 7" = Ok (RGBColor.Build (-15) 255 7)
  /\ (-15 <= -15 <= 255 /\ -15 <= 255 <= 255 /\ -15 <= 7 <= 255).
Proof.
  split; [reflexivity |].
  apply (from_hex_channel_bounds "-fff 7" (RGBColor.Build (-15) 255 7)).
  reflexivity.
Defined.

End from_hex_bounds.

Section hex_length.

Lemma length_append s t :
  String.length (s +:+ t) = (String.length s + String.length t)%nat.
Proof. induction s as [| c s IH]; simpl; [reflexivity | rewrite IH; lia]. Qed.

Lemma hex_digits_length_mono k n acc :
  (String.length acc <= String.length (hex_digits k n acc))%nat.
Proof.
  revert n acc. induction k as [| k IH]; intros n acc; cbn; [lia |].
  destruct (n / 16 =? 0); [cbn; lia |].
  etransitivity; [| apply IH]. cbn. lia.
Qed.

Lemma hex_digits_length_step k n acc :
  n / 16 <> 0 ->
  hex_digits (S k) n acc
  = hex_digits k (n / 16) (String (hex_digit (n mod 16)) acc).
Proof. intros H. cbn. apply Z.eqb_neq in H. rewrite H. reflexivity. Qed.

Lemma format_x_length_1 n : (1 <= String.length (format_x n))%nat.
Proof.
  unfold format_x. cbn [hex_digits].
  destruct (n / 16 =? 0); [cbn; lia |].
  etransitivity; [| apply hex_digits_length_mono]. cbn. lia.
Qed.

Lemma format_x_length_2 n : 16 <= n -> (2 <= String.length (format_x n))%nat.
Proof.
  intros Hn. unfold format_x.
  assert (L : 4 <= Z.log2 n) by (apply (Z.log2_le_mono 16 n); lia).
  destruct (Z.to_nat (Z.log2 n)) as [| k] eqn:E; [lia |].
  assert (D : 1 <= n / 16) by (apply Z.div_le_lower_bound; lia).
  rewrite hex_digits_length_step by lia.
  cbn [hex_digits]. destruct (n / 16 / 16 =? 0); [cbn; lia |].
  etransitivity; [| apply hex_digits_length_mono]. cbn. lia.
Qed.

Lemma format_x_length_3 n : 256 <= n -> (3 <= String.length (format_x n))%nat.
Proof.
  intros Hn. unfold format_x.
  assert (L : 8 <= Z.log2 n) by (apply (Z.log2_le_mono 256 n); lia).
  destruct (Z.to_nat (Z.log2 n)) as [| [| k]] eqn:E; [lia | lia |].
  assert (D : 16 <= n / 16) by (apply Z.div_le_lower_bound; lia).
  assert (D' : 1 <= n / 16 / 16) by (apply Z.div_le_lower_bound; lia).
  rewrite !hex_digits_length_step by lia.
  cbn [hex_digits]. destruct (n / 16 / 16 / 16 =? 0); [cbn; lia |].
  etransitivity; [| apply hex_digits_length_mono]. cbn. lia.
Qed.

Lemma zfill_length w s :
  (String.length s <= String.length (zfill w s))%nat.
Proof. unfold zfill. rewrite length_append. lia. Qed.

Lemma format_02x_long n :
  n < -15 \/ 255 < n -> (3 <= String.length (format_02x n))%nat.
Proof.
  intros H. unfold format_02x. destruct (Z.ltb_spec n 0).
  - cbn [String.length].
    pose proof (zfill_length 1 (format_x (- n))).
    pose proof (format_x_length_2 (- n) ltac:(lia)). lia.
  - pose proof (zfill_length 2 (format_x n)).
    pose proof (format_x_length_3 n ltac:(lia)). lia.
Qed.

Lemma format_02x_two n : (2 <= String.length (format_02x n))%nat.
Proof.
  unfold format_02x. destruct (n <? 0).
  - cbn [String.length].
    pose proof (zfill_length 1 (format_x (- n))).
    pose proof (format_x_length_1 (- n)). lia.
  - unfold zfill. rewrite length_append.
    pose proof (format_x_length_1 n).
    assert (Z : forall k, String.length (zeros k) = k)
      by (induction k; cbn; congruence).
    rewrite Z. lia.
Qed.

Lemma format_reads_back_all n :
  -15 <= n <= 255 -> format_reads_back n = true.
Proof.
  intros Hn.
  assert (H : forallb format_reads_back
                (map (fun k => Z.of_nat k - 15) (seq 0 271)) = true)
    by (vm_compute; reflexivity).
  rewrite forallb_forall in H. apply H.
  apply in_map_iff. exists (Z.to_nat (n + 15)). split; [lia |].
  apply in_seq. lia.
Qed.

Lemma format_02x_short n :
  -15 <= n <= 255 ->
  exists a b,
    format_02x n = String a (String b EmptyString)
    /\ plain a = true /\ plain b = true
    /\ int16 (String a (String b EmptyString)) = Ok n.
Proof.
  intros Hn. pose proof (format_reads_back_all n Hn) as H.
  unfold format_reads_back in H.
  apply andb_prop in H as [H H3]. apply andb_prop in H as [H1 H2].
  destruct (format_02x n) as [| a [| b [| c s]]]; try discriminate.
  exists a, b. cbn [all_plain] in H2.
  apply andb_prop in H2 as [Pa H2]. apply andb_prop in H2 as [Pb _].
  destruct (int16 (String a (String b EmptyString))) as [v |];
    [| discriminate].
  apply Z.eqb_eq in H3. subst v. auto.
Qed.

(** X14. [hex] gives exactly seven characters if and only if every
    channel is between -15 and 255, the values that ['%02x'] writes in
    two characters; and for these colours, negative channels included,
    [from_hex] reads the colour back from [hex]. *)
Theorem hex_seven_characters (c : RGBColor.t) :
  (String.length (RGBColor.hex c) = 7%nat <->
     -15 <= RGBColor.red c <= 255 /\ -15 <= RGBColor.green c <= 255
     /\ -15 <= RGBColor.blue c <= 255)
  /\ (-15 <= RGBColor.red c <= 255 -> -15 <= RGBColor.green c <= 255 ->
      -15 <= RGBColor.blue c <= 255 ->
      RGBColor.from_hex (RGBColor.hex c) = Ok c).
Proof.
  assert (R : -15 <= RGBColor.red c <= 255 ->
              -15 <= RGBColor.green c <= 255 ->
              -15 <= RGBColor.blue c <= 255 ->
              String.length (RGBColor.hex c) = 7%nat
              /\ RGBColor.from_hex (RGBColor.hex c) = Ok c).
  { intros Hr Hg Hb. unfold RGBColor.hex.
    destruct (format_02x_short _ Hr) as (a1 & a2 & -> & P1 & P2 & Ia).
    destruct (format_02x_short _ Hg) as (b1 & b2 & -> & P3 & P4 & Ib).
    destruct (format_02x_short _ Hb) as (c1 & c2 & -> & P5 & P6 & Ic).
    split; [reflexivity |].
    unfold RGBColor.from_hex, replace.
    cbn [String.append].
    set (body := String a1 (String a2 (String b1 (String b2
                   (String c1 (String c2 EmptyString)))))).
    assert (Hp : all_plain body = true).
    { unfold body. cbn [all_plain]. rewrite P1, P2, P3, P4, P5, P6.
      reflexivity. }
    change (replace_from "#" "" 0
              (String "#" (String a1 (String a2 EmptyString)
                 +:+ String b1 (String b2 EmptyString)
                 +:+ String c1 (String c2 EmptyString))))
      with (replace_from "#" "" 0 body).
    rewrite (replace_hash_plain _ Hp), (replace_0x_plain _ Hp).
    unfold body, slice. cbn [String.substring Nat.sub].
    rewrite Ia, Ib, Ic. destruct c; reflexivity. }
  split; [split |].
  - intros L. revert L. unfold RGBColor.hex. cbn [String.length].
    rewrite !length_append.
    pose proof (format_02x_long (RGBColor.red c)).
    pose proof (format_02x_long (RGBColor.green c)).
    pose proof (format_02x_long (RGBColor.blue c)).
    pose proof (format_02x_two (RGBColor.red c)).
    pose proof (format_02x_two (RGBColor.green c)).
    pose proof (format_02x_two (RGBColor.blue c)).
    lia.
  - intros (Hr & Hg & Hb). apply R; assumption.
  - intros Hr Hg Hb. apply R; assumption.
Qed.

End hex_length.

Section table_more.

Lemma members_in_range :
  forall name c, In (name, c) RGB.members -> in_range c.
Proof.
  intros name c H.
  assert (A : forallb
                (fun kv : string * RGBColor.t =>
                   (0 <=? RGBColor.red kv.2) && (RGBColor.red kv.2 <=? 255)
                   && (0 <=? RGBColor.green kv.2)
                   && (RGBColor.green kv.2 <=? 255)
                   && (0 <=? RGBColor.blue kv.2)
                   && (RGBColor.blue kv.2 <=? 255)) RGB.members = true)
    by (vm_compute; reflexivity).
  rewrite forallb_forall in A. specialize (A _ H). cbn [snd] in A.
  rewrite !andb_true_iff, !Z.leb_le in A. unfold in_range. lia.
Qed.


(** X16. Every colour of the table is in range: [clamp] leaves it as it
    is, and [from_hex] reads it back from its [hex]. *)
Theorem table_colours_in_range {Inherited : Type} (__name__ : string)
    (inherited : string -> option Inherited) (name : string)
    (c : RGBColor.t) :
  RGB.getattr __name__ inherited name = Ok (RGB.Colour c) ->
  in_range c /\ RGBColor.clamp c = Ok c
  /\ RGBColor.from_hex (RGBColor.hex c) = Ok c.
Proof.
  intros E. apply getattr_bound in E.
  pose proof (members_in_range _ _ E) as R.
  split; [exact R |]. split; [apply clamp_in_range; exact R |].
  destruct R as (Hr & Hg & Hb).
  destruct c as [r g b]. cbn in Hr, Hg, Hb.
  destruct (byte_format r Hr) as (Fr & Pr & Ir).
  destruct (byte_format g Hg) as (Fg & Pg & Ig).
  destruct (byte_format b Hb) as (Fb & Pb & Ib).
  unfold RGBColor.hex. cbn [RGBColor.red RGBColor.green RGBColor.blue].
  rewrite Fr, Fg, Fb. unfold RGBColor.from_hex, replace.
  assert (Hp : all_plain (two_hex r +:+ two_hex g +:+ two_hex b) = true).
  { rewrite !all_plain_app, Pr, Pg, Pb. reflexivity. }
  change (replace_from "#" "" 0
            (String "#" (two_hex r +:+ two_hex g +:+ two_hex b)))
    with (replace_from "#" "" 0 (two_hex r +:+ two_hex g +:+ two_hex b)).
  rewrite (replace_hash_plain _ Hp), (replace_0x_plain _ Hp).
  change (slice (two_hex r +:+ two_hex g +:+ two_hex b) 0 2)
    with (two_hex r).
  change (slice (two_hex r +:+ two_hex g +:+ two_hex b) 2 4)
    with (two_hex g).
  change (slice (two_hex r +:+ two_hex g +:+ two_hex b) 4 6)
    with (two_hex b).
  rewrite Ir, Ig, Ib. reflexivity.
Qed.

Lemma table_colours_in_range_witness :
  RGB.getattr "nikocraft.window.rgb" (fun _ => @None Empty_set)
    "DARKSLATEGRAY3"
  = Ok (RGB.Colour (RGBColor.Build 121 205 205))
  /\ in_range (RGBColor.Build 121 205 205)
  /\ RGBColor.clamp (RGBColor.Build 121 205 205)
     = Ok (RGBColor.Build 121 205 205)
  /\ RGBColor.from_hex (RGBColor.hex (RGBColor.Build 121 205 205))
     = Ok (RGBColor.Build 121 205 205).
Proof.
  split; [vm_compute; reflexivity |].
  apply (table_colours_in_range "nikocraft.window.rgb"
           (fun _ => @None Empty_set) "DARKSLATEGRAY3").
  vm_compute. reflexivity.
Defined.

End table_more.

Section pow_props.

Variable float_pow : spec_float -> spec_float -> result numeric.

Lemma new_numeric_ints r g b :
  RGBColor.__new__numeric (Real (PyInt r)) (Real (PyInt g)) (Real (PyInt b))
  = Ok (RGBColor.Build r g b).
Proof. reflexivity. Qed.

Lemma pow_int_eq c p :
  0 <= p ->
  RGBColor.__pow__ float_pow c (PyInt p) None
  = Ok (map_channels (fun x => clip (x ^ p)) c).
Proof.
  intros Hp. unfold RGBColor.__pow__, pow.
  apply Z.leb_le in Hp. rewrite Hp. simpl_bind.
  rewrite new_numeric_ints. simpl_bind. apply clamp_eq.
Qed.

(** X17. Raising to an int power that is not negative, without a
    modulus, returns the colour of the clipped powers, whatever the float
    power function does. So [c ** 1] is [c.clamp()], and [c ** 0] is
    (1, 1, 1) for every colour, black included. *)
Theorem pow_by_nonnegative_int (c : RGBColor.t) (p : Z) :
  0 <= p ->
  RGBColor.__pow__ float_pow c (PyInt p) None
    = Ok (map_channels (fun x => clip (x ^ p)) c)
  /\ RGBColor.__pow__ float_pow c (PyInt 1) None = RGBColor.clamp c
  /\ RGBColor.__pow__ float_pow c (PyInt 0) None = Ok (RGBColor.Build 1 1 1).
Proof.
  intros Hp. split; [apply pow_int_eq; exact Hp |]. split.
  - rewrite pow_int_eq, clamp_eq by lia. unfold map_channels.
    rewrite !Z.pow_1_r. reflexivity.
  - rewrite pow_int_eq by lia. reflexivity.
Qed.

Lemma pow_mod_nonneg a e m :
  0 <= e -> m <> 0 -> pow_mod a e m = Ok ((a ^ e) mod m).
Proof.
  intros He Hm. unfold pow_mod.
  apply Z.eqb_neq in Hm as ->.
  destruct (Z.abs m =? 1) eqn:E1.
  - apply Z.eqb_eq in E1. f_equal.
    assert (m = 1 \/ m = -1) as [-> | ->] by lia.
    + rewrite Z.mod_1_r. reflexivity.
    + symmetry. apply Z.mod_divide; [lia |]. exists (- a ^ e). lia.
  - apply Z.ltb_ge in He as ->. reflexivity.
Qed.

(** X18. With a modulus, [**] raises [ValueError] for the modulus 0 and
    [TypeError] as soon as the power or the modulus is a float. For an
    int power that is not negative, a modulus from 1 to 256 gives every
    channel the power reduced by the modulus, with nothing cut off, and a
    negative modulus gives black. *)
Theorem pow_with_modulus (c : RGBColor.t) (p m : Z) (f : spec_float)
    (x : number) :
  RGBColor.__pow__ float_pow c (PyInt p) (Some (PyInt 0)) = Raise ValueError
  /\ RGBColor.__pow__ float_pow c (PyFloat f) (Some x) = Raise TypeError
  /\ RGBColor.__pow__ float_pow c x (Some (PyFloat f)) = Raise TypeError
  /\ (0 <= p -> 1 <= m <= 256 ->
      RGBColor.__pow__ float_pow c (PyInt p) (Some (PyInt m))
        = Ok (map_channels (fun x => (x ^ p) mod m) c)
      /\ forall x, 0 <= (x ^ p) mod m < m)
  /\ (0 <= p -> m < 0 ->
      RGBColor.__pow__ float_pow c (PyInt p) (Some (PyInt m))
        = Ok (RGBColor.Build 0 0 0)).
Proof.
  split; [reflexivity |].
  split; [destruct x; reflexivity |].
  split; [destruct x; reflexivity |].
  split.
  - intros Hp Hm. split; [| intros y; apply Z.mod_pos_bound; lia].
    unfold RGBColor.__pow__, pow. rewrite !pow_mod_nonneg by lia.
    simpl_bind. rewrite new_numeric_ints. simpl_bind.
    rewrite clamp_eq. unfold map_channels.
    cbn [RGBColor.red RGBColor.green RGBColor.blue].
    assert (B : forall y, clip ((y ^ p) mod m) = (y ^ p) mod m).
    { intros y. apply clip_id.
      pose proof (Z.mod_pos_bound (y ^ p) m ltac:(lia)). lia. }
    rewrite !B. reflexivity.
  - intros Hp Hm.
    unfold RGBColor.__pow__, pow. rewrite !pow_mod_nonneg by lia.
    simpl_bind. rewrite new_numeric_ints. simpl_bind.
    rewrite clamp_eq. cbn [RGBColor.red RGBColor.green RGBColor.blue].
    assert (B : forall y, clip ((y ^ p) mod m) = 0).
    { intros y. unfold clip.
      pose proof (Z.mod_neg_bound (y ^ p) m ltac:(lia)). lia. }
    rewrite !B. reflexivity.
Qed.

End pow_props.

Lemma pow_by_nonnegative_int_witness :
  0 <= 2
  /\ RGBColor.__pow__ (fun _ _ => Raise OverflowError)
       (RGBColor.Build 2 15 16) (PyInt 2) None
     = Ok (RGBColor.Build 4 225 255).
Proof.
  split; [lia |].
  apply (pow_by_nonnegative_int (fun _ _ => Raise OverflowError)
           (RGBColor.Build 2 15 16) 2).
  lia.
Defined.

(** * The text of a colour *)

Section str_props.

Lemma string_of_uint_no_char c d :
  (digit_value c <? 10) = false ->
  no_char c (DecimalString.NilEmpty.string_of_uint d) = true.
Proof.
  intros Hc. induction d;
    cbn [DecimalString.NilEmpty.string_of_uint no_char];
    try reflexivity; rewrite IHd, andb_true_r;
    apply negb_true_iff, Ascii.eqb_neq; intros <-; discriminate.
Qed.

Lemma decimal_no_char c z :
  (digit_value c <? 10) = false -> c <> "-"%char ->
  no_char c (decimal z) = true.
Proof.
  intros Hc Hm. unfold decimal.
  assert (U : forall d,
             no_char c (DecimalString.NilZero.string_of_uint d) = true).
  { intros d. pose proof (string_of_uint_no_char c d Hc).
    destruct d; try assumption.
    cbn [DecimalString.NilZero.string_of_uint no_char].
    rewrite andb_true_r. apply negb_true_iff, Ascii.eqb_neq.
    intros <-. discriminate. }
  destruct (Z.to_int z) as [d | d];
    cbn [DecimalString.NilZero.string_of_int no_char]; [apply U |].
  rewrite U, andb_true_r. apply negb_true_iff, Ascii.eqb_neq. congruence.
Qed.

Lemma decimal_inj z1 z2 : decimal z1 = decimal z2 -> z1 = z2.
Proof.
  unfold decimal. intros E. apply DecimalZ.to_int_inj.
  assert (N : forall z, Z.to_int z <> Decimal.Pos Decimal.Nil
                        /\ Z.to_int z <> Decimal.Neg Decimal.Nil).
  { intros [| p | p]; cbn; split; try discriminate;
      intros [= H]; revert H; apply DecimalPos.Unsigned.to_uint_nonnil. }
  pose proof (DecimalString.NilZero.isi _ (proj1 (N z1)) (proj2 (N z1)))
    as R1.
  pose proof (DecimalString.NilZero.isi _ (proj1 (N z2)) (proj2 (N z2)))
    as R2.
  rewrite E in R1. congruence.
Qed.

Lemma append_sep_inj c s1 s2 t1 t2 :
  no_char c s1 = true -> no_char c s2 = true ->
  s1 +:+ String c t1 = s2 +:+ String c t2 -> s1 = s2 /\ t1 = t2.
Proof.
  revert s2. induction s1 as [| a s1 IH]; intros [| b s2]; simpl;
    intros H1 H2 E.
  - injection E as E. auto.
  - injection E as <- E. apply andb_prop in H2 as [H2 _].
    rewrite Ascii.eqb_refl in H2. discriminate.
  - injection E as -> E. apply andb_prop in H1 as [H1 _].
    rewrite Ascii.eqb_refl in H1. discriminate.
  - injection E as -> E.
    apply andb_prop in H1 as [_ H1]. apply andb_prop in H2 as [_ H2].
    destruct (IH _ H1 H2 E) as [-> ->]. auto.
Qed.

Lemma text_inj a b : text a = text b -> a = b.
Proof.
  destruct a as [r1 g1 b1], b as [r2 g2 b2]. unfold text.
  cbn [RGBColor.red RGBColor.green RGBColor.blue]. simpl String.append.
  intros [= E].
  apply append_sep_inj in E as [Er E];
    [| apply decimal_no_char; [reflexivity | discriminate] ..].
  injection E as E.
  apply append_sep_inj in E as [Eg E];
    [| apply decimal_no_char; [reflexivity | discriminate] ..].
  injection E as E.
  apply append_sep_inj in E as [Eb _];
    [| apply decimal_no_char; [reflexivity | discriminate] ..].
  apply decimal_inj in Er, Eg, Eb. congruence.
Qed.

Lemma str_eq limit (a : RGBColor.t) :
  RGBColor.__str__ limit a
  = if printable limit a then Ok (text a) else Raise ValueError.
Proof.
  unfold RGBColor.__str__, printable, str_int, within.
  destruct ((0 <? limit) && (limit <? digits (RGBColor.red a)));
    [reflexivity |].
  destruct ((0 <? limit) && (limit <? digits (RGBColor.green a)));
    [reflexivity |].
  destruct ((0 <? limit) && (limit <? digits (RGBColor.blue a)));
    reflexivity.
Qed.

Section decimal_size.

Import Decimal.
Import DecimalPos.Unsigned.

Lemma of_lu_lt d : (of_lu d < 10 ^ usize d)%N.
Proof.
  induction d; cbn [of_lu usize]; rewrite ?N.pow_succ_r'; lia.
Qed.

Lemma usize_revapp d e : usize (revapp d e) = (usize d + usize e)%N.
Proof.
  revert e. induction d; intros e; cbn [revapp usize];
    rewrite ?IHd; cbn [usize]; lia.
Qed.

Lemma usize_nb_digits d : usize d = N.of_nat (nb_digits d).
Proof.
  induction d; cbn [usize nb_digits]; rewrite ?IHd; lia.
Qed.

Lemma string_of_uint_length d :
  String.length (DecimalString.NilEmpty.string_of_uint d) = nb_digits d.
Proof.
  induction d; cbn [DecimalString.NilEmpty.string_of_uint String.length
                    nb_digits]; congruence.
Qed.

(** The decimal digits of a positive number start with a digit that is
    not 0. *)
Lemma to_uint_head p :
  match Pos.to_uint p with Nil | D0 _ => False | _ => True end.
Proof.
  pose proof (to_of (Pos.to_uint p)) as N.
  rewrite of_to in N. cbn [N.to_uint] in N.
  pose proof (to_uint_nonzero p) as NZ.
  pose proof (to_uint_nonnil p) as E.
  destruct (Pos.to_uint p) as [| d | | | | | | | | |]; try exact I.
  - apply E. reflexivity.
  - rewrite DecimalFacts.unorm_D0 in N. unfold unorm in N.
    pose proof (DecimalFacts.nzhead_nonzero d d) as H.
    destruct (nzhead d) eqn:Hd; try discriminate.
    + injection N as N. subst d. apply NZ. reflexivity.
    + apply H. symmetry. exact N.
Qed.

(** A positive number of [m] digits is at least [10 ^ (m - 1)] and below
    [10 ^ m]. *)
Lemma pos_size p :
  let m := N.of_nat (nb_digits (Pos.to_uint p)) in
  (10 ^ (m - 1) <= N.pos p < 10 ^ m)%N /\ (1 <= m)%N.
Proof.
  pose proof (of_to p) as V. rewrite of_uint_alt in V.
  pose proof (to_uint_head p) as H.
  destruct (Pos.to_uint p) as [| d | d | d | d | d | d | d | d | d | d];
    try contradiction;
    unfold rev in V; cbn [revapp] in V; rewrite of_lu_revapp in V;
    cbn [of_lu] in V;
    pose proof (of_lu_lt (rev d)) as B;
    unfold rev in B at 2; rewrite usize_revapp in B; cbn [usize] in B;
    rewrite N.add_0_r in B; rewrite <- V;
    cbn [nb_digits]; cbv zeta;
    rewrite Nat2N.inj_succ, <- usize_nb_digits;
    replace (N.succ (usize d) - 1)%N with (usize d) by lia;
    rewrite N.pow_succ_r'; nia.
Qed.

End decimal_size.

Lemma digits_pos p :
  digits (Z.pos p) = Z.of_nat (Decimal.nb_digits (Pos.to_uint p)).
Proof.
  unfold digits, decimal.
  change (Z.to_int (Z.abs (Z.pos p))) with (Decimal.Pos (Pos.to_uint p)).
  change (DecimalString.NilZero.string_of_int (Decimal.Pos (Pos.to_uint p)))
    with (DecimalString.NilZero.string_of_uint (Pos.to_uint p)).
  pose proof (DecimalPos.Unsigned.to_uint_nonnil p) as E.
  unfold DecimalString.NilZero.string_of_uint.
  destruct (Pos.to_uint p); try (exfalso; apply E; reflexivity);
    cbv beta iota; rewrite string_of_uint_length; reflexivity.
Qed.

(** An int has at most [n] digits exactly when it lies strictly between
    [- 10 ^ n] and [10 ^ n]. *)
Lemma digits_le z n : 0 < n -> digits z <= n <-> Z.abs z < 10 ^ n.
Proof.
  intros Hn.
  assert (P : forall p, digits (Z.pos p) <= n <-> Z.pos p < 10 ^ n).
  { intros p. rewrite digits_pos. pose proof (pos_size p) as S.
    cbv zeta in S. destruct S as [[L U] M].
    set (m := Decimal.nb_digits (Pos.to_uint p)) in *.
    apply N2Z.inj_le in L. apply N2Z.inj_lt in U.
    rewrite N2Z.inj_pow in L, U. rewrite N2Z.inj_sub in L by exact M.
    rewrite nat_N_Z in L, U. change (Z.of_N 10) with 10 in L, U.
    change (Z.of_N 1) with 1 in L.
    change (Z.of_N (N.pos p)) with (Z.pos p) in L, U.
    split; intros H.
    - apply (Z.lt_le_trans _ _ _ U). apply Z.pow_le_mono_r; lia.
    - destruct (Z_le_gt_dec (Z.of_nat m) n) as [G | G]; [exact G |].
      exfalso. assert (10 ^ n <= 10 ^ (Z.of_nat m - 1))
        by (apply Z.pow_le_mono_r; lia). lia. }
  destruct z as [| p | p].
  - change (digits 0) with 1. cbn [Z.abs]. split; intros _; [| lia].
    apply Z.pow_pos_nonneg; lia.
  - apply P.
  - change (digits (Z.neg p)) with (digits (Z.pos p)). apply P.
Qed.

Lemma within_iff limit z :
  within limit z = true <-> limit <= 0 \/ Z.abs z < 10 ^ limit.
Proof.
  unfold within. rewrite negb_true_iff, andb_false_iff, !Z.ltb_ge.
  destruct (Z_lt_le_dec 0 limit) as [H | H]; [| tauto].
  rewrite (digits_le z limit H). lia.
Qed.

Lemma printable_iff limit c :
  printable limit c = true
  <-> limit <= 0
      \/ (Z.abs (RGBColor.red c) < 10 ^ limit
          /\ Z.abs (RGBColor.green c) < 10 ^ limit
          /\ Z.abs (RGBColor.blue c) < 10 ^ limit).
Proof.
  unfold printable. rewrite !andb_true_iff, !within_iff. tauto.
Qed.

(** At the limit: a channel of [10 ^ n] or [- 10 ^ n] is one digit too
    long for a limit of [n] digits, a channel just inside is written, and
    with the limit off every channel is. *)
Lemma str_at_limit n :
  0 < n ->
  RGBColor.__str__ n (RGBColor.Build (10 ^ n) 0 0) = Raise ValueError
  /\ RGBColor.__str__ n (RGBColor.Build 0 (- 10 ^ n) 0) = Raise ValueError
  /\ is_ok (RGBColor.__str__ n
              (RGBColor.Build (10 ^ n - 1) (1 - 10 ^ n) 0)) = true
  /\ is_ok (RGBColor.__str__ 0 (RGBColor.Build (10 ^ n) 0 0)) = true.
Proof.
  intros Hn.
  assert (T : 0 < 10 ^ n) by (apply Z.pow_pos_nonneg; lia).
  rewrite !str_eq.
  assert (P1 : printable n (RGBColor.Build (10 ^ n) 0 0) = false).
  { apply not_true_is_false. rewrite printable_iff.
    cbn [RGBColor.red RGBColor.green RGBColor.blue]. lia. }
  assert (P2 : printable n (RGBColor.Build 0 (- 10 ^ n) 0) = false).
  { apply not_true_is_false. rewrite printable_iff.
    cbn [RGBColor.red RGBColor.green RGBColor.blue]. lia. }
  assert (P3 : printable n (RGBColor.Build (10 ^ n - 1) (1 - 10 ^ n) 0)
               = true).
  { rewrite printable_iff.
    cbn [RGBColor.red RGBColor.green RGBColor.blue]. lia. }
  assert (P4 : printable 0 (RGBColor.Build (10 ^ n) 0 0) = true).
  { rewrite printable_iff. left. lia. }
  rewrite P1, P2, P3, P4. repeat split.
Qed.

(** X20. [str] of a colour is the three channels in decimal, a minus sign
    before a negative one, between parentheses and separated by a comma
    and a blank, and it raises [ValueError] exactly when the interpreter
    limits the digits of an int and a channel has more digits than that:
    when a channel is [10 ^ limit] or more, or [- 10 ^ limit] or less. Two
    colours are given the same text exactly when they are the same colour,
    one that can be written. Under the limit an interpreter starts with, a
    channel of 4300 digits is written, negative or not, and one of 4301
    digits is not; with the limit off it is written. *)
Theorem str_tells_colours_apart (limit : Z) (a b : RGBColor.t) :
  RGBColor.__str__ limit a
  = (if printable limit a then Ok (text a) else Raise ValueError)
  /\ ((exists s, RGBColor.__str__ limit a = Ok s
                 /\ RGBColor.__str__ limit b = Ok s)
      <-> a = b /\ printable limit a = true)
  /\ (printable limit a = true
      <-> limit <= 0
          \/ (Z.abs (RGBColor.red a) < 10 ^ limit
              /\ Z.abs (RGBColor.green a) < 10 ^ limit
              /\ Z.abs (RGBColor.blue a) < 10 ^ limit))
  /\ RGBColor.__str__ default_max_str_digits (RGBColor.Build 1 (-2) 300)
     = Ok "(1, -2, 300)"
  /\ RGBColor.__str__ default_max_str_digits
       (RGBColor.Build (10 ^ default_max_str_digits) 0 0)
     = Raise ValueError
  /\ RGBColor.__str__ default_max_str_digits
       (RGBColor.Build 0 (- 10 ^ default_max_str_digits) 0)
     = Raise ValueError
  /\ is_ok (RGBColor.__str__ default_max_str_digits
              (RGBColor.Build (10 ^ default_max_str_digits - 1)
                 (1 - 10 ^ default_max_str_digits) 0)) = true
  /\ is_ok (RGBColor.__str__ 0
              (RGBColor.Build (10 ^ default_max_str_digits) 0 0)) = true.
Proof.
  split; [apply str_eq |]. split; [| split; [apply printable_iff |]].
  - rewrite !str_eq. split.
    + intros (s & Ea & Eb).
      destruct (printable limit a); [| discriminate].
      destruct (printable limit b); [| discriminate].
      split; [| reflexivity]. apply text_inj. congruence.
    + intros [<- P]. rewrite P. exists (text a). split; reflexivity.
  - split; [vm_compute; reflexivity |].
    exact (str_at_limit default_max_str_digits eq_refl).
Qed.

End str_props.
